(** * WeCom digest builder: a shallow embedding of [scripts/send_wecom_digest.py]

    The script turns a JSON snapshot of news items into a markdown message
    that fits a byte budget and posts it to a WeCom robot webhook.  This file
    embeds its functions and proves the properties its specification states.

    Python [str] values are sequences of Unicode code points: [len] counts
    code points while [encode("utf-8")] counts bytes, and the two differ on
    the Chinese text the digest is made of.  Strings are therefore lists of
    code points, with the UTF-8 encoder written out, including its refusal
    of lone surrogates. *)

From Stdlib Require Import ZArith NArith List Bool Lia String Ascii.
From Stdlib Require Import DecimalString.
From Stdlib Require Floats.SpecFloat.
Import ListNotations.

Local Open Scope Z_scope.
#[local] Set Warnings "-register-all".

(** ** Python strings *)

Module PyStr.

(** A code point, [0 .. 0x10FFFF]. *)
Definition codepoint := N.
Definition pystr := list codepoint.

(** [len(s)] *)
Definition len (s : pystr) : Z := Z.of_nat (List.length s).

(** A lone surrogate, [U+D800 .. U+DFFF].  A [str] can hold one
    ([json.loads] reads the escape of one, and the command line delivers
    undecodable bytes as such), but it has no UTF-8 encoding. *)
Definition is_surrogate (c : codepoint) : bool :=
  ((55296 <=? c) && (c <=? 57343))%N.

(** The UTF-8 bytes of a code point that has an encoding. *)
Definition utf8_bytes_cp (c : codepoint) : list N :=
  (if c <? 128 then [c]
   else if c <? 2048 then [192 + c / 64; 128 + c mod 64]
   else if c <? 65536 then
     [224 + c / 4096; 128 + (c / 64) mod 64; 128 + c mod 64]
   else
     [240 + c / 262144; 128 + (c / 4096) mod 64;
      128 + (c / 64) mod 64; 128 + c mod 64])%N.

(** The UTF-8 encoding of one code point; [None] where [encode] raises
    [UnicodeEncodeError]. *)
Definition utf8_encode_cp (c : codepoint) : option (list N) :=
  if is_surrogate c then None else Some (utf8_bytes_cp c).

(** [s.encode("utf-8")]; [None] when it raises [UnicodeEncodeError]. *)
Fixpoint utf8_encode (s : pystr) : option (list N) :=
  match s with
  | [] => Some []
  | c :: r =>
    match utf8_encode_cp c, utf8_encode r with
    | Some b, Some bs => Some (b ++ bs)
    | _, _ => None
    end
  end.

(** [len(s.encode("utf-8"))]; [None] when the encoding raises. *)
Definition utf8_len (s : pystr) : option Z :=
  option_map (fun bytes => Z.of_nat (List.length bytes)) (utf8_encode s).

(** Decoding of the UTF-8 bytes of a source literal, so that the constants of
    the script can be written as they appear in it. *)
Fixpoint utf8_decode (bs : list N) : pystr :=
  match bs with
  | [] => []
  | b0 :: r0 =>
    if (b0 <? 128)%N then b0 :: utf8_decode r0
    else match r0 with
    | [] => []
    | b1 :: r1 =>
      if (b0 <? 224)%N then
        ((b0 - 192) * 64 + (b1 - 128))%N :: utf8_decode r1
      else match r1 with
      | [] => []
      | b2 :: r2 =>
        if (b0 <? 240)%N then
          ((b0 - 224) * 4096 + (b1 - 128) * 64 + (b2 - 128))%N
            :: utf8_decode r2
        else match r2 with
        | [] => []
        | b3 :: r3 =>
          ((b0 - 240) * 262144 + (b1 - 128) * 4096
           + (b2 - 128) * 64 + (b3 - 128))%N :: utf8_decode r3
        end
      end
    end
  end.

Definition bytes_of_string (s : string) : list N :=
  List.map (fun a => N_of_ascii a) (list_ascii_of_string s).

(** The Python string written by a literal of this file. *)
Definition lit (s : string) : pystr := utf8_decode (bytes_of_string s).

Definition LF : codepoint := 10%N.
Definition SPACE : codepoint := 32%N.

(** [str.isspace] on one code point: the table of CPython's
    [_PyUnicode_IsWhitespace], which [str.strip()] consults. *)
Definition is_space (c : codepoint) : bool :=
  ((9 <=? c) && (c <=? 13) || (28 <=? c) && (c <=? 32)
   || (c =? 133) || (c =? 160) || (c =? 5760)
   || (8192 <=? c) && (c <=? 8202)
   || (c =? 8232) || (c =? 8233) || (c =? 8239) || (c =? 8287)
   || (c =? 12288))%N.

Fixpoint lstrip (s : pystr) : pystr :=
  match s with
  | [] => []
  | c :: r => if is_space c then lstrip r else s
  end.

Definition rstrip (s : pystr) : pystr := rev (lstrip (rev s)).

(** [s.strip()] *)
Definition strip (s : pystr) : pystr := rstrip (lstrip s).

(** [s.replace(old, new)] for a one-character [old]. *)
Definition replace_char (old : codepoint) (new : pystr) (s : pystr) : pystr :=
  flat_map (fun c => if (c =? old)%N then new else [c]) s.

(** [sep.join(parts)] *)
Fixpoint join (sep : pystr) (parts : list pystr) : pystr :=
  match parts with
  | [] => []
  | [p] => p
  | p :: rest => p ++ sep ++ join sep rest
  end.

(** [s[:k]] with Python's reading of a negative bound. *)
Definition slice_to {A} (l : list A) (k : Z) : list A :=
  if k <? 0 then firstn (Z.to_nat (Z.of_nat (List.length l) + k)) l
  else firstn (Z.to_nat k) l.

(** [str(n)] for an [int]: decimal digits, with a leading minus sign. *)
Definition str_of_int (n : Z) : pystr :=
  bytes_of_string (NilZero.string_of_int (Z.to_int n)).

(** The first line of a text: what precedes its first line feed. *)
Fixpoint first_line (s : pystr) : pystr :=
  match s with
  | [] => []
  | c :: r => if (c =? LF)%N then [] else c :: first_line r
  end.

(** Python truthiness of a string. *)
Definition nonempty (s : pystr) : bool :=
  match s with [] => false | _ => true end.

End PyStr.
Import PyStr.

(** ** JSON values as Python objects *)

Module Py.

(** What [json.loads] produces: [None], [bool], [int], [float], [str],
    [list] and [dict] with string keys.  A [dict] is kept as its items in
    order; [get] returns the first entry of a key. *)
Inductive value : Type :=
| VNone
| VBool (b : bool)
| VInt (n : Z)
| VFloat (f : SpecFloat.spec_float)
| VStr (s : pystr)
| VList (l : list value)
| VDict (d : list (pystr * value)).

Definition dict := list (pystr * value).

Definition pystr_eqb (a b : pystr) : bool :=
  if list_eq_dec N.eq_dec a b then true else false.

(** [d.get(key)] with an explicit default. *)
Fixpoint get_default (d : dict) (key : pystr) (default : value) : value :=
  match d with
  | [] => default
  | (k, v) :: rest => if pystr_eqb k key then v else get_default rest key default
  end.

(** [d.get(key)]: [None] when the key is absent. *)
Definition get (d : dict) (key : pystr) : value := get_default d key VNone.

(** [bool(v)] *)
Definition truthy (v : value) : bool :=
  match v with
  | VNone => false
  | VBool b => b
  | VInt n => negb (n =? 0)
  | VFloat f => match f with SpecFloat.S754_zero _ => false | _ => true end
  | VStr s => nonempty s
  | VList l => match l with [] => false | _ => true end
  | VDict d => match d with [] => false | _ => true end
  end.

(** [a or b] *)
Definition py_or (a b : value) : value := if truthy a then a else b.

(** [s or t] on strings *)
Definition str_or (a b : pystr) : pystr := if nonempty a then a else b.

(** Exceptions the script can raise or let through. *)
Inductive exn : Type :=
| ValueError
| TypeError
| OverflowError
| AttributeError
| JSONDecodeError
| RequestException (what : pystr)
| HTTPError (status : Z)
| RuntimeError (message : pystr)
| UnicodeEncodeError.

Definition result (A : Type) : Type := (exn + A)%type.

(** A [datetime]; [utcoffset] is [None] for a naive one, else seconds east
    of UTC. *)
Record datetime : Type := mk_datetime {
  year : Z; month : Z; day : Z;
  hour : Z; minute : Z; second : Z; microsecond : Z;
  utcoffset : option Z
}.

(** What the script takes from the Python runtime and its libraries rather
    than defining itself.  [None] stands for a raised exception. *)
Class Runtime : Type := {
  (** [datetime.fromisoformat(s)] *)
  fromisoformat : pystr -> option datetime;
  (** [dt.astimezone(ZoneInfo("Asia/Shanghai"))] *)
  astimezone_shanghai : datetime -> option datetime;
  (** [repr(x)] of a [float] *)
  repr_float : SpecFloat.spec_float -> pystr;
  (** [repr(s)] of a [str] *)
  repr_str : pystr -> pystr;
  (** [int(s)] of a [str] *)
  int_of_str : pystr -> option Z
}.

Section WithRuntime.
Context {R : Runtime}.

(** [repr(v)] *)
Fixpoint py_repr (v : value) : pystr :=
  match v with
  | VNone => lit "None"
  | VBool true => lit "True"
  | VBool false => lit "False"
  | VInt n => str_of_int n
  | VFloat f => repr_float f
  | VStr s => repr_str s
  | VList l => lit "[" ++ join (lit ", ") (List.map py_repr l) ++ lit "]"
  | VDict d =>
    lit "{"
    ++ join (lit ", ")
         (List.map (fun kv => let '(k, x) := kv in
                              repr_str k ++ lit ": " ++ py_repr x) d)
    ++ lit "}"
  end.

(** [str(v)] *)
Definition py_str (v : value) : pystr :=
  match v with
  | VStr s => s
  | _ => py_repr v
  end.

(** [int(v)] *)
Definition py_int (v : value) : result Z :=
  match v with
  | VInt n => inr n
  | VBool b => inr (if b then 1 else 0)
  | VFloat f =>
    match f with
    | SpecFloat.S754_zero _ => inr 0
    | SpecFloat.S754_infinity _ => inl OverflowError
    | SpecFloat.S754_nan => inl ValueError
    | SpecFloat.S754_finite s m e =>
      let a := if 0 <=? e then Z.pos m * 2 ^ e else Z.pos m / 2 ^ (- e) in
      inr (if s then - a else a)
    end
  | VStr s => match int_of_str s with Some n => inr n | None => inl ValueError end
  | VNone | VList _ | VDict _ => inl TypeError
  end.

End WithRuntime.
End Py.
Import Py.

(** ** The script *)

Module Digest.
Section WithRuntime.
Context {R : Runtime}.

Definition DEFAULT_BYTE_LIMIT : Z := 3800.

Definition ELLIPSIS : pystr := Eval vm_compute in lit "…".
Definition PLACEHOLDER_TIME : pystr := Eval vm_compute in lit "--:--".

(** A two-digit field of [strftime] ([%m], [%d], [%H], [%M]). *)
Definition pad2 (n : Z) : pystr :=
  if n <? 10 then lit "0" ++ str_of_int n else str_of_int n.

(** [dt.strftime("%m-%d %H:%M")] *)
Definition strftime_md_hm (dt : datetime) : pystr :=
  pad2 (month dt) ++ lit "-" ++ pad2 (day dt) ++ lit " "
  ++ pad2 (hour dt) ++ lit ":" ++ pad2 (minute dt).

(** [iso_str.replace("Z", "+00:00")] *)
Definition replace_Z (s : pystr) : pystr :=
  replace_char 90%N (lit "+00:00") s.

Definition parse_iso_to_bj (iso_str : option pystr) : pystr :=
  match iso_str with
  | None => PLACEHOLDER_TIME
  | Some s =>
    if negb (nonempty s) then PLACEHOLDER_TIME
    else
      match fromisoformat (replace_Z s) with
      | Some dt =>
        match astimezone_shanghai dt with
        | Some bj => strftime_md_hm bj
        | None => s
        end
      | None => s
      end
  end.

(** [shorten(text, limit)]; on a [str], [text or ""] is [text]. *)
Definition shorten (text : pystr) (limit : Z) : pystr :=
  let s := strip (replace_char LF [SPACE] text) in
  if len s <=? limit then s
  else if limit <=? 1 then ELLIPSIS
  else slice_to s (limit - 1) ++ ELLIPSIS.

Definition H_TITLE : pystr := Eval vm_compute in lit "## AI 新闻日报（近24小时）".
Definition H_GENERATED : pystr := Eval vm_compute in lit "> 生成时间：".
Definition H_BEIJING : pystr := Eval vm_compute in lit "（北京时间）".
Definition H_COUNT : pystr := Eval vm_compute in lit "> AI 相关条数：".
Definition H_DETAILS : pystr := Eval vm_compute in lit "> 查看详情：[".

Definition _header_lines (snapshot : dict) (keyword : pystr) (total : Z)
    (site_url : option pystr) : list pystr :=
  let generated_at :=
    parse_iso_to_bj
      (Some (py_str (py_or (get snapshot (lit "generated_at")) (VStr [])))) in
  (if nonempty keyword then [keyword] else [])
  ++ [H_TITLE;
      H_GENERATED ++ generated_at ++ H_BEIJING;
      H_COUNT ++ str_of_int total]
  ++ match site_url with
     | Some u =>
       if nonempty u then [H_DETAILS ++ u ++ lit "](" ++ u ++ lit ")"] else []
     | None => []
     end
  ++ [[]].

(** The two lines of one entry of the list. *)
Definition item_block (idx : Z) (item : dict) (title_limit : Z) : list pystr :=
  let title :=
    shorten
      (py_str (py_or (py_or (get item (lit "title_bilingual"))
                            (get item (lit "title")))
                     (VStr (lit "Untitled"))))
      title_limit in
  let url := strip (py_str (py_or (get item (lit "url")) (VStr []))) in
  let site :=
    str_or (strip (py_str (py_or (get item (lit "site_name")) (VStr []))))
           (lit "-") in
  let source :=
    str_or (strip (py_str (py_or (get item (lit "source")) (VStr []))))
           (lit "-") in
  let published :=
    parse_iso_to_bj
      (Some (py_str (py_or (get item (lit "published_at")) (VStr [])))) in
  [ if nonempty url
    then str_of_int idx ++ lit ". [" ++ title ++ lit "](" ++ url ++ lit ")"
    else str_of_int idx ++ lit ". " ++ title;
    lit "> " ++ site ++ lit "/" ++ source ++ lit " · " ++ published ].

(** [for idx, item in enumerate(items, start)] *)
Fixpoint enumerate_blocks (start : Z) (items : list dict) (title_limit : Z)
    : list pystr :=
  match items with
  | [] => []
  | item :: rest =>
    item_block start item title_limit
    ++ enumerate_blocks (start + 1) rest title_limit
  end.

Definition _item_lines (items : list dict) (top_n : Z) (title_limit : Z)
    : list pystr :=
  enumerate_blocks 1 (slice_to items top_n) title_limit.

(** [[it for it in raw if isinstance(it, dict)]] *)
Fixpoint dict_entries (raw : list value) : list dict :=
  match raw with
  | [] => []
  | VDict d :: rest => d :: dict_entries rest
  | _ :: rest => dict_entries rest
  end.

Definition pick_ai_items (snapshot : dict) : list dict :=
  let raw :=
    py_or (py_or (get snapshot (lit "items_ai")) (get snapshot (lit "items")))
          (VList []) in
  match raw with
  | VList l => dict_entries l
  | _ => []
  end.

Definition REMARK_PRE : pystr := Eval vm_compute in lit "> 其余 ".
Definition REMARK_POST : pystr := Eval vm_compute in lit " 条请查看页面或仓库数据".

(** The text rendered by one pass of the loop. *)
Definition render (header : list pystr) (items : list dict) (total : Z)
    (shown title_limit : Z) : pystr :=
  let body := _item_lines items shown title_limit in
  let body :=
    if total >? shown
    then body ++ [[]; REMARK_PRE ++ str_of_int (total - shown) ++ REMARK_POST]
    else body in
  strip (join [LF] (header ++ body)).

(** One pass of [while True]: a [return], the variables of the next pass,
    or the exception that [content.encode("utf-8")] raised. *)
Inductive pass : Type :=
| Return (content : pystr) (shown : Z)
| Continue (shown title_limit : Z)
| Raise (e : exn).

Definition loop_body (header : list pystr) (items : list dict)
    (total min_items byte_limit : Z) (shown title_limit : Z) : pass :=
  let content := render header items total shown title_limit in
  match utf8_len content with
  | None => Raise UnicodeEncodeError
  | Some size =>
    if size <=? byte_limit then Return content shown
    else if shown >? min_items then Continue (shown - 1) title_limit
    else if title_limit >? 20 then Continue shown (title_limit - 4)
    else Return content shown
  end.

(** [while True] run for at most [fuel] passes: what the loop returns or
    raises; [None] when the passes run out before either. *)
Fixpoint while_true (fuel : nat) (header : list pystr) (items : list dict)
    (total min_items byte_limit : Z) (shown title_limit : Z)
    : option (result (pystr * Z)) :=
  match fuel with
  | O => None
  | S fuel' =>
    match loop_body header items total min_items byte_limit shown title_limit with
    | Return content shown' => Some (inr (content, shown'))
    | Raise e => Some (inl e)
    | Continue shown' title_limit' =>
      while_true fuel' header items total min_items byte_limit
                 shown' title_limit'
    end
  end.

(** How far the loop variables are from where no pass can continue. *)
Definition loop_measure (min_items shown title_limit : Z) : nat :=
  (Z.to_nat (shown - min_items) + Z.to_nat (title_limit - 16))%nat.

(** [shown] before the loop. *)
Definition initial_shown (top_n total : Z) : Z :=
  let shown := Z.min (Z.max top_n 0) total in
  if shown >? 0 then shown else Z.min total 3.

(** [build_digest_markdown(snapshot, keyword=, top_n=, byte_limit=,
    site_url=)]: the pair it returns or the exception it raises.  The loop
    is allowed one pass more than the measure of its first variables; the
    result is [None] only if that were not enough. *)
Definition build_digest_markdown (snapshot : dict) (keyword : pystr)
    (top_n byte_limit : Z) (site_url : option pystr)
    : option (result (pystr * Z)) :=
  let items := pick_ai_items snapshot in
  let total := Z.of_nat (List.length items) in
  let shown := initial_shown top_n total in
  let title_limit := 46 in
  let header := _header_lines snapshot keyword total site_url in
  let min_items := if total =? 0 then 0 else 1 in
  while_true (S (loop_measure min_items shown title_limit))
             header items total min_items byte_limit shown title_limit.

End WithRuntime.
End Digest.
Import Digest.

(** ** Delivery *)

Module Net.

Record request : Type := mk_request {
  req_url : pystr;
  req_json : value;
  req_timeout : Z
}.

(** A response: its status code and what [resp.json()] gives, [None] when
    the body is not JSON. *)
Record response : Type := mk_response {
  status_code : Z;
  json_body : option value
}.

(** The network as the script sees it: how a POST is answered, given the
    requests made before it, and the requests made so far. *)
Record world : Type := mk_world {
  answer : list request -> request -> result response;
  sent : list request
}.

(** Computations that talk to the network and may raise. *)
Definition IO (A : Type) : Type := world -> world * result A.

Definition ret {A} (a : A) : IO A := fun w => (w, inr a).

Definition raise {A} (e : exn) : IO A := fun w => (w, inl e).

Definition bind {A B} (c : IO A) (k : A -> IO B) : IO B :=
  fun w =>
    match c w with
    | (w', inr a) => k a w'
    | (w', inl e) => (w', inl e)
    end.

Definition lift {A} (r : result A) : IO A := fun w => (w, r).

Notation "x <- c ;; k" := (bind c (fun x => k))
  (at level 61, c at next level, right associativity).

(** [requests.post(url, json=payload, timeout=timeout)] *)
Definition requests_post (url : pystr) (payload : value) (timeout : Z)
    : IO response :=
  fun w =>
    let q := mk_request url payload timeout in
    (mk_world (answer w) (sent w ++ [q]), answer w (sent w) q).

(** [resp.raise_for_status()] *)
Definition raise_for_status (resp : response) : IO unit :=
  if (400 <=? status_code resp) && (status_code resp <? 600)
  then raise (HTTPError (status_code resp))
  else ret tt.

(** [resp.json()] *)
Definition resp_json (resp : response) : IO value :=
  match json_body resp with
  | Some data => ret data
  | None => raise JSONDecodeError
  end.

(** [data.get(key, default)]; only a [dict] has [get]. *)
Definition data_get (data : value) (key : pystr) (default : value) : IO value :=
  match data with
  | VDict d => ret (get_default d key default)
  | _ => raise AttributeError
  end.

Section WithRuntime.
Context {R : Runtime}.

Definition markdown_payload (content : pystr) : value :=
  VDict [(lit "msgtype", VStr (lit "markdown"));
         (lit "markdown", VDict [(lit "content", VStr content)])].

Definition send_wecom_markdown (webhook_url content : pystr) (timeout : Z)
    : IO value :=
  let payload := markdown_payload content in
  resp <- requests_post webhook_url payload timeout ;;
  _ <- raise_for_status resp ;;
  data <- resp_json resp ;;
  errcode <- data_get data (lit "errcode") (VInt (-1)) ;;
  code <- lift (py_int errcode) ;;
  if negb (code =? 0)
  then raise (RuntimeError (lit "WeCom push failed: " ++ py_str data))
  else ret data.

End WithRuntime.
End Net.
Import Net.

(** ** The zone database

    [ZoneInfo("Asia/Shanghai")] takes the zone from the tz database of the
    system.  The table is the zone as release 2026b of the database has it:
    local mean time, 8:05:43 east of UTC, until 1901; then UTC+8, with
    daylight saving time, UTC+9, in 1919, in the years 1940 to 1949 and in
    the summers of 1986 to 1991.  [astimezone] is the conversion of an aware
    [datetime] as CPython does it: the offset of the value is subtracted,
    the zone's offset at that instant is added, and either step raises
    [OverflowError] when it leaves the years 1 to 9999. *)

Module ZoneInfo.

(** Days since 1970-01-01 of a date of the proleptic Gregorian calendar. *)
Definition days_from_civil (y m d : Z) : Z :=
  let y := if m <=? 2 then y - 1 else y in
  let era := y / 400 in
  let yoe := y - era * 400 in
  let doy := (153 * (if m >? 2 then m - 3 else m + 9) + 2) / 5 + d - 1 in
  let doe := yoe * 365 + yoe / 4 - yoe / 100 + doy in
  era * 146097 + doe - 719468.

Definition civil_from_days (z : Z) : Z * Z * Z :=
  let z := z + 719468 in
  let era := z / 146097 in
  let doe := z - era * 146097 in
  let yoe := (doe - doe / 1460 + doe / 36524 - doe / 146096) / 365 in
  let doy := doe - (365 * yoe + yoe / 4 - yoe / 100) in
  let mp := (5 * doy + 2) / 153 in
  let d := doy - (153 * mp + 2) / 5 + 1 in
  let m := if mp <? 10 then mp + 3 else mp - 9 in
  (if m <=? 2 then yoe + era * 400 + 1 else yoe + era * 400, m, d).

(** Seconds from 1970-01-01T00:00:00 to a civil time. *)
Definition timestamp (y m d h mi s : Z) : Z :=
  days_from_civil y m d * 86400 + h * 3600 + mi * 60 + s.

Definition LMT : Z := 29143.
Definition CST : Z := 28800.
Definition CDT : Z := 32400.

(** The UTC times at which the offset changes, and the offset from then on. *)
Definition transitions : list (Z * Z) :=
  [(timestamp 1900 12 31 15 54 17, CST);
   (timestamp 1919 4 12 16 0 0, CDT); (timestamp 1919 9 30 15 0 0, CST);
   (timestamp 1940 5 31 16 0 0, CDT); (timestamp 1940 10 12 15 0 0, CST);
   (timestamp 1941 3 14 16 0 0, CDT); (timestamp 1941 11 1 15 0 0, CST);
   (timestamp 1942 1 30 16 0 0, CDT); (timestamp 1945 9 1 15 0 0, CST);
   (timestamp 1946 5 14 16 0 0, CDT); (timestamp 1946 9 30 15 0 0, CST);
   (timestamp 1947 4 14 16 0 0, CDT); (timestamp 1947 10 31 15 0 0, CST);
   (timestamp 1948 4 30 16 0 0, CDT); (timestamp 1948 9 30 15 0 0, CST);
   (timestamp 1949 4 30 16 0 0, CDT); (timestamp 1949 5 27 15 0 0, CST);
   (timestamp 1986 5 3 18 0 0, CDT); (timestamp 1986 9 13 17 0 0, CST);
   (timestamp 1987 4 11 18 0 0, CDT); (timestamp 1987 9 12 17 0 0, CST);
   (timestamp 1988 4 16 18 0 0, CDT); (timestamp 1988 9 10 17 0 0, CST);
   (timestamp 1989 4 15 18 0 0, CDT); (timestamp 1989 9 16 17 0 0, CST);
   (timestamp 1990 4 14 18 0 0, CDT); (timestamp 1990 9 15 17 0 0, CST);
   (timestamp 1991 4 13 18 0 0, CDT); (timestamp 1991 9 14 17 0 0, CST)].

(** The last change: UTC+8 from 1991-09-14T17:00:00Z on. *)
Definition LAST_TRANSITION : Z := timestamp 1991 9 14 17 0 0.

Fixpoint utcoffset_from (current : Z) (changes : list (Z * Z)) (utc : Z) : Z :=
  match changes with
  | [] => current
  | (start, offset) :: later =>
    if utc <? start then current else utcoffset_from offset later utc
  end.

(** Seconds east of UTC in Asia/Shanghai at a UTC time. *)
Definition utcoffset_at (utc : Z) : Z := utcoffset_from LMT transitions utc.

(** [datetime.min] to [datetime.max], to the second. *)
Definition representable (t : Z) : bool :=
  (timestamp 1 1 1 0 0 0 <=? t) && (t <=? timestamp 9999 12 31 23 59 59).

(** The [datetime] whose wall clock is [t] seconds from 1970-01-01T00:00:00. *)
Definition wall_clock (t us offset : Z) : datetime :=
  let '(y, m, d) := civil_from_days (t / 86400) in
  let r := t mod 86400 in
  mk_datetime y m d (r / 3600) (r mod 3600 / 60) (r mod 60) us (Some offset).

(** The UTC time of a [datetime] whose offset is [offset]. *)
Definition utc_of (dt : datetime) (offset : Z) : Z :=
  timestamp (year dt) (month dt) (day dt) (hour dt) (minute dt) (second dt)
  - offset.

(** [dt.astimezone(ZoneInfo("Asia/Shanghai"))] for [dt] of offset [offset]. *)
Definition astimezone (dt : datetime) (offset : Z) : option datetime :=
  let utc := utc_of dt offset in
  if negb (representable utc) then None
  else
    let local := utc + utcoffset_at utc in
    if negb (representable local) then None
    else Some (wall_clock local (microsecond dt) (utcoffset_at utc)).

End ZoneInfo.

(** ** A runtime for the closed examples

    The theorems below hold for every [Runtime].  To evaluate the script on
    concrete inputs this instance supplies one: timestamps of the shape
    [YYYY-MM-DD?HH:MM:SS+HH:MM] (what the snapshots carry once the script has
    replaced [Z]), the zone database above, a host whose local zone is UTC,
    [repr] of strings with nothing to escape and [int] of plain decimal
    strings.  Other timestamps are reported as unparseable by it. *)

Module Host.

Definition digit (c : codepoint) : option Z :=
  if ((48 <=? c) && (c <=? 57))%N then Some (Z.of_N c - 48) else None.

Fixpoint digits_from (acc : Z) (s : pystr) : option Z :=
  match s with
  | [] => Some acc
  | c :: r =>
    match digit c with
    | Some d => digits_from (10 * acc + d) r
    | None => None
    end
  end.

Definition number (s : pystr) : option Z :=
  match s with [] => None | _ => digits_from 0 s end.

Definition is_leap (y : Z) : bool :=
  ((y mod 4 =? 0) && negb (y mod 100 =? 0)) || (y mod 400 =? 0).

Definition days_in_month (y m : Z) : Z :=
  if m =? 2 then (if is_leap y then 29 else 28)
  else if (m =? 4) || (m =? 6) || (m =? 9) || (m =? 11) then 30 else 31.

Definition sub (s : pystr) (from count : nat) : pystr :=
  firstn count (skipn from s).

Definition host_fromisoformat (s : pystr) : option datetime :=
  if negb (Nat.eqb (List.length s) 25) then None else
  match number (sub s 0 4), number (sub s 5 2), number (sub s 8 2),
        number (sub s 11 2), number (sub s 14 2), number (sub s 17 2),
        number (sub s 20 2), number (sub s 23 2) with
  | Some y, Some mo, Some d, Some h, Some mi, Some sec, Some oh, Some om =>
    let sign := sub s 19 1 in
    let off := oh * 3600 + om * 60 in
    if pystr_eqb (sub s 4 1) (lit "-") && pystr_eqb (sub s 7 1) (lit "-")
       && pystr_eqb (sub s 13 1) (lit ":") && pystr_eqb (sub s 16 1) (lit ":")
       && pystr_eqb (sub s 22 1) (lit ":")
       && (pystr_eqb sign (lit "+") || pystr_eqb sign (lit "-"))
       && (1 <=? y) && (1 <=? mo) && (mo <=? 12)
       && (1 <=? d) && (d <=? days_in_month y mo)
       && (h <? 24) && (mi <? 60) && (sec <? 60) && (off <? 86400)
    then Some (mk_datetime y mo d h mi sec 0
                 (Some (if pystr_eqb sign (lit "-") then - off else off)))
    else None
  | _, _, _, _, _, _, _, _ => None
  end.

(** A naive value is read in the local zone of the host, here UTC. *)
Definition host_astimezone (dt : datetime) : option datetime :=
  ZoneInfo.astimezone dt (match utcoffset dt with Some o => o | None => 0 end).

Fixpoint drop_zeros (s : pystr) : pystr :=
  match s with
  | 48%N :: r => drop_zeros r
  | _ => s
  end.

(** The exact decimal expansion of a float: CPython's shortest [repr] only
    where the two agree (0.5, 2.0, ...); no example below prints a float. *)
Definition host_repr_float (f : SpecFloat.spec_float) : pystr :=
  match f with
  | SpecFloat.S754_zero s => if s then lit "-0.0" else lit "0.0"
  | SpecFloat.S754_infinity s => if s then lit "-inf" else lit "inf"
  | SpecFloat.S754_nan => lit "nan"
  | SpecFloat.S754_finite s m e =>
    (if s then lit "-" else [])
    ++ (if 0 <=? e then str_of_int (Z.pos m * 2 ^ e) ++ lit ".0"
        else
          let k := - e in
          let fr := str_of_int ((Z.pos m mod 2 ^ k) * 5 ^ k) in
          let fr := repeat 48%N (Z.to_nat k - List.length fr) ++ fr in
          let fr := rev (drop_zeros (rev fr)) in
          str_of_int (Z.pos m / 2 ^ k) ++ lit "."
          ++ (if nonempty fr then fr else lit "0"))
  end.

Definition host_repr_str (s : pystr) : pystr := lit "'" ++ s ++ lit "'".

Definition host_int_of_str (s : pystr) : option Z :=
  match s with
  | 45%N :: r => option_map Z.opp (number r)
  | 43%N :: r => number r
  | _ => number s
  end.

#[export] Instance runtime : Runtime := {
  fromisoformat := host_fromisoformat;
  astimezone_shanghai := host_astimezone;
  repr_float := host_repr_float;
  repr_str := host_repr_str;
  int_of_str := host_int_of_str
}.

End Host.

(** ** Snapshots of the repository's tests *)

Module Samples.

Definition news_item (i : Z) : value :=
  VDict [(lit "title", VStr (lit "标题" ++ str_of_int i));
         (lit "url", VStr (lit "https://example.com/" ++ str_of_int i));
         (lit "site_name", VStr (lit "NewsNow"));
         (lit "source", VStr (lit "demo"));
         (lit "published_at", VStr (lit "2026-02-23T01:00:00Z"))].

(** Five short items, as in [test_build_digest_markdown_contains_keyword_and_truncation]. *)
Definition five_items : dict :=
  [(lit "generated_at", VStr (lit "2026-02-23T02:00:00Z"));
   (lit "items_ai", VList (List.map news_item [0; 1; 2; 3; 4]))].

Definition long_title : pystr := List.concat (repeat (lit "超长标题") 50%nat).

Definition long_item (i : Z) : value :=
  VDict [(lit "title_bilingual", VStr long_title);
         (lit "url", VStr (lit "https://example.com/" ++ str_of_int i));
         (lit "site_name", VStr (lit "Site"));
         (lit "source", VStr (lit "src"));
         (lit "published_at", VStr (lit "2026-02-23T01:00:00Z"))].

(** Two items with long titles, as in [test_build_digest_markdown_shrinks_to_byte_limit]. *)
Definition two_long_items : dict :=
  [(lit "generated_at", VStr (lit "2026-02-23T02:00:00Z"));
   (lit "items_ai", VList (List.map long_item [1; 2]))].

Definition KEYWORD : pystr := Eval vm_compute in lit "AI新闻雷达".

(** The lone surrogates [U+D800] and [U+DCFF]: what [json.loads] makes of
    the escape of the first, and what an undecodable byte of the command
    line becomes. *)
Definition HIGH_SURROGATE : pystr := [55296%N].
Definition ESCAPED_BYTE : pystr := [56575%N].

(** One item whose title is a lone surrogate. *)
Definition surrogate_title : dict :=
  [(lit "items", VList [VDict [(lit "title", VStr HIGH_SURROGATE)]])].

Definition snapshot_ai_and_items : dict :=
  [(lit "items_ai", VList [VDict [(lit "title", VStr (lit "A"))]; VInt 7]);
   (lit "items", VList [VDict [(lit "title", VStr (lit "B"))]])].

Definition snapshot_empty_ai : dict :=
  [(lit "items_ai", VList []);
   (lit "items", VList [VDict [(lit "title", VStr (lit "B"))]])].

Definition snapshot_text_ai : dict :=
  [(lit "items_ai", VStr (lit "none yet"));
   (lit "items", VList [VDict [(lit "title", VStr (lit "B"))]])].

(** A webhook that answers every POST with status 200 and the given record. *)
Definition answers_ok (body : dict) : world :=
  mk_world (fun _ _ => inr (mk_response 200 (Some (VDict body)))) [].

(** The float 0.5 as [json.loads] reads it. *)
Definition half : SpecFloat.spec_float :=
  SpecFloat.S754_finite false 4503599627370496 (-53).

End Samples.

(** ** Definitions used to state the properties *)

Definition is_dict (v : value) : bool :=
  match v with VDict _ => true | _ => false end.

(** What the specification's rule returns for one field: the records of a
    sequence in order, nothing for any other value. *)
Definition records_of (v : value) : list dict :=
  match v with
  | VList l => dict_entries l
  | _ => []
  end.

(** The header as one text: the keyword line when there is a keyword (less
    any whitespace in front of it), the title, the generation time, the
    count, and the link line when a site URL is given. *)
Definition header_text {R : Runtime} (snapshot : dict) (keyword : pystr) (total : Z)
    (site_url : option pystr) : pystr :=
  lstrip (if nonempty keyword then keyword ++ [LF] else [])
  ++ H_TITLE ++ [LF]
  ++ (H_GENERATED
      ++ parse_iso_to_bj
           (Some (py_str (py_or (get snapshot (lit "generated_at")) (VStr []))))
      ++ H_BEIJING) ++ [LF]
  ++ (H_COUNT ++ str_of_int total)
  ++ match site_url with
     | Some u =>
       if nonempty u
       then [LF] ++ H_DETAILS ++ u ++ lit "](" ++ u ++ lit ")"
       else []
     | None => []
     end.

(** ** The command line *)

Module Cli.

(** The namespace [parser.parse_args()] returns, one field per option. *)
Record args : Type := mk_args {
  arg_input : pystr;
  arg_top_n : Z;
  arg_keyword : pystr;
  arg_byte_limit : Z;
  arg_site_url : pystr;
  arg_webhook_env : pystr;
  arg_webhook_url : pystr;
  arg_dry_run : bool
}.

(** The defaults of the parser. *)
Definition default_args : args :=
  mk_args (lit "data/latest-24h.json") 12 (lit "AI新闻雷达") DEFAULT_BYTE_LIMIT
          [] (lit "WECOM_WEBHOOK_URL") [] false.

(** What [json.loads(Path(p).read_text(encoding="utf-8"))] gives for a path:
    the read raises, the parse raises, or a value comes out. *)
Inductive document : Type :=
| Unreadable
| Malformed
| Parsed (v : value).

(** What [main] can touch: the documents on disk, the environment, the
    lines printed so far, and the network. *)
Record host : Type := mk_host {
  documents : pystr -> document;
  environ : pystr -> option pystr;
  stdout : list pystr;
  network : world
}.

(** How a run of [main] ends. *)
Inductive outcome : Type :=
| Returned (code : Z)
| Raised (e : exn)
| RaisedOSError
| SystemExit (message : pystr)
| OutOfPasses.

(** [os.getenv(name, "")] *)
Definition getenv (h : host) (name : pystr) : pystr :=
  match environ h name with
  | Some v => v
  | None => []
  end.

(** [print(line)] *)
Definition print (h : host) (line : pystr) : host :=
  mk_host (documents h) (environ h) (stdout h ++ [line]) (network h).

Definition with_network (h : host) (w : world) : host :=
  mk_host (documents h) (environ h) (stdout h) w.

Definition MISSING_WEBHOOK : pystr :=
  Eval vm_compute in lit "Missing webhook URL. Provide --webhook-url or set env ".

Definition DRY_RUN_SHOWN : pystr := Eval vm_compute in LF :: lit "[dry-run] shown=".

Section WithRuntime.
Context {R : Runtime}.

(** [main()], after [parse_args].  A snapshot that is not a record has no
    [get]: the builder raises [AttributeError] on its first line.  What the
    builder raises, here and in its loop, ends [main] before anything is
    printed or sent. *)
Definition main (a : args) (h : host) : host * outcome :=
  match documents h (arg_input a) with
  | Unreadable => (h, RaisedOSError)
  | Malformed => (h, Raised JSONDecodeError)
  | Parsed (VDict snapshot) =>
    match build_digest_markdown snapshot (arg_keyword a) (arg_top_n a)
            (arg_byte_limit a)
            (if nonempty (arg_site_url a) then Some (arg_site_url a) else None)
    with
    | None => (h, OutOfPasses)
    | Some (inl e) => (h, Raised e)
    | Some (inr (content, shown)) =>
      if arg_dry_run a then
        (print (print h content) (DRY_RUN_SHOWN ++ str_of_int shown), Returned 0)
      else
        let webhook :=
          strip (str_or (arg_webhook_url a) (getenv h (arg_webhook_env a))) in
        if negb (nonempty webhook)
        then (h, SystemExit (MISSING_WEBHOOK ++ arg_webhook_env a))
        else
          match send_wecom_markdown webhook content 15 (network h) with
          | (w, inl e) => (with_network h w, Raised e)
          | (w, inr result) =>
            (print (with_network h w) (py_str result), Returned 0)
          end
    end
  | Parsed _ => (h, Raised AttributeError)
  end.

End WithRuntime.
End Cli.

(** A text without lone surrogates: one that [encode("utf-8")] accepts. *)
Definition encodable (s : pystr) : bool :=
  forallb (fun c => negb (is_surrogate c)) s.

(** The number of bytes of the encoding of a text that has one. *)
Definition utf8_size (s : pystr) : Z :=
  Z.of_nat (List.length (flat_map utf8_bytes_cp s)).

(** The text of the first pass of the loop of [build_digest_markdown]: the
    rendering at the first [shown] and a title limit of 46. *)
Definition first_pass_text {R : Runtime} (snapshot : dict) (keyword : pystr)
    (top_n : Z) (site_url : option pystr) : pystr :=
  let items := pick_ai_items snapshot in
  let total := Z.of_nat (List.length items) in
  render (_header_lines snapshot keyword total site_url) items total
         (initial_shown top_n total) 46.

(** The count and the text of a call that returned; [None] for one that
    raised. *)
Definition returned_shown (r : option (result (pystr * Z))) : option Z :=
  match r with
  | Some (inr (_, shown)) => Some shown
  | _ => None
  end.

Definition returned_text (r : option (result (pystr * Z))) : option pystr :=
  match r with
  | Some (inr (content, _)) => Some content
  | _ => None
  end.

(** The number of lines of a list of lines, as [len] gives it. *)
Definition len_lines (lines : list pystr) : Z := Z.of_nat (List.length lines).

(** The part of the joined text that the keyword contributes. *)
Definition keyword_part (keyword : pystr) : pystr :=
  if nonempty keyword then keyword ++ [LF] else [].

(** ** Hosts for the closed examples of the command line *)

Module Runs.

(** A disk that holds the five-item snapshot at the default path. *)
Definition disk (path : pystr) : Cli.document :=
  if pystr_eqb path (lit "data/latest-24h.json")
  then Cli.Parsed (VDict Samples.five_items)
  else Cli.Unreadable.

(** An environment whose webhook variable has spaces around the URL. *)
Definition env_with_hook (name : pystr) : option pystr :=
  if pystr_eqb name (lit "WECOM_WEBHOOK_URL")
  then Some (lit " https://hook ")
  else None.

Definition host : Cli.host :=
  Cli.mk_host disk env_with_hook []
    (Samples.answers_ok [(lit "errcode", VInt 0);
                         (lit "errmsg", VStr (lit "ok"))]).

Definition dry_args : Cli.args :=
  Cli.mk_args (lit "data/latest-24h.json") 12 (lit "AI新闻雷达")
              DEFAULT_BYTE_LIMIT [] (lit "WECOM_WEBHOOK_URL") [] true.

(** An override made of two spaces. *)
Definition blank_override_args : Cli.args :=
  Cli.mk_args (lit "data/latest-24h.json") 12 (lit "AI新闻雷达")
              DEFAULT_BYTE_LIMIT [] (lit "WECOM_WEBHOOK_URL") (lit "  ") false.

End Runs.

(** ** Checks of the string model *)

Example lit_ellipsis : lit "…" = [8230%N].
Proof. reflexivity. Qed.

Example encode_ellipsis : utf8_encode (lit "…") = Some [226; 128; 166]%N.
Proof. reflexivity. Qed.

Example str_of_int_neg : str_of_int (-12) = lit "-12".
Proof. reflexivity. Qed.

(** ** Facts about strings *)

Section StringFacts.

Lemma len_nonneg (s : pystr) : 0 <= len s.
Proof. unfold len. lia. Qed.

Lemma len_app (a b : pystr) : len (a ++ b) = len a + len b.
Proof. unfold len. rewrite length_app. lia. Qed.

Lemma len_nil_inv (s : pystr) : len s <= 0 -> s = [].
Proof. destruct s; [reflexivity | unfold len; simpl; lia]. Qed.

Lemma lstrip_app_anchor (a r : pystr) (c : codepoint) :
  is_space c = false -> lstrip (a ++ c :: r) = lstrip a ++ c :: r.
Proof.
  intros Hc. induction a as [| x a IH]; simpl.
  - now rewrite Hc.
  - destruct (is_space x); [exact IH | reflexivity].
Qed.

Lemma rstrip_app_anchor (a r : pystr) (c : codepoint) :
  is_space c = false -> rstrip (a ++ c :: r) = a ++ c :: rstrip r.
Proof.
  intros Hc. unfold rstrip.
  assert (E : rev (a ++ c :: r) = rev r ++ c :: rev a).
  { rewrite rev_app_distr. simpl. now rewrite <- app_assoc. }
  rewrite E, (lstrip_app_anchor _ _ _ Hc), rev_app_distr.
  simpl. rewrite rev_involutive, <- app_assoc. reflexivity.
Qed.

(** [lstrip] removes a run of whitespace and stops at the first other
    character. *)
Lemma lstrip_spec (s : pystr) :
  exists a, s = a ++ lstrip s /\ forallb is_space a = true
            /\ (forall c r, lstrip s = c :: r -> is_space c = false).
Proof.
  induction s as [| x s (a & Hs & Ha & Hh)]; simpl.
  - exists []. repeat split; intros; discriminate.
  - destruct (is_space x) eqn:Hx.
    + exists (x :: a). simpl. rewrite Hx, Ha. repeat split; [congruence | exact Hh].
    + exists []. repeat split. intros c r E. now injection E as <- _.
Qed.

Lemma lstrip_all_space (a : pystr) : forallb is_space a = true -> lstrip a = [].
Proof.
  induction a as [| x a IH]; simpl; [reflexivity |].
  intros H. apply andb_prop in H as [Hx Ha]. rewrite Hx. auto.
Qed.

Lemma forallb_rev_space (a : pystr) :
  forallb is_space (rev a) = forallb is_space a.
Proof.
  induction a as [| x a IH]; simpl; [reflexivity |].
  rewrite forallb_app, IH. simpl. rewrite andb_true_r. apply andb_comm.
Qed.

(** [strip] keeps a middle part of the text, drops only whitespace on both
    sides, and leaves no whitespace at either end. *)
Lemma strip_spec (s : pystr) :
  exists a b,
    s = a ++ strip s ++ b
    /\ forallb is_space a = true /\ forallb is_space b = true
    /\ (forall c r, strip s = c :: r -> is_space c = false)
    /\ (forall r c, strip s = r ++ [c] -> is_space c = false).
Proof.
  destruct (lstrip_spec s) as (a & Hs & Ha & Hh).
  destruct (lstrip_spec (rev (lstrip s))) as (b & Hr & Hb & Ht).
  exists a, (rev b). unfold strip, rstrip.
  assert (Hmid : lstrip s = rev (lstrip (rev (lstrip s))) ++ rev b).
  { rewrite <- rev_app_distr, <- Hr. now rewrite rev_involutive. }
  split; [now rewrite <- Hmid, <- Hs |].
  split; [exact Ha |].
  split; [now rewrite forallb_rev_space |].
  split.
  - intros c r E. rewrite E in Hmid. simpl in Hmid. eapply Hh; eauto.
  - intros r c E. apply (f_equal (@rev _)) in E.
    rewrite rev_involutive, rev_app_distr in E. simpl in E. eapply Ht; eauto.
Qed.

Lemma replace_LF_is_map (s : pystr) :
  replace_char LF [SPACE] s
  = List.map (fun c => if (c =? LF)%N then SPACE else c) s.
Proof.
  unfold replace_char. induction s as [| c s IH]; simpl; [reflexivity |].
  rewrite IH. now destruct (c =? LF)%N.
Qed.

Lemma replace_LF_no_LF (s : pystr) : ~ In LF (replace_char LF [SPACE] s).
Proof.
  rewrite replace_LF_is_map. intros H. apply in_map_iff in H as (c & E & _).
  destruct (c =? LF)%N eqn:Hc; [discriminate |].
  apply N.eqb_neq in Hc. congruence.
Qed.

Lemma first_line_app_LF (k rest : pystr) :
  ~ In LF k -> first_line (k ++ LF :: rest) = k.
Proof.
  induction k as [| c k IH]; simpl; intros Hk; [reflexivity |].
  destruct (c =? LF)%N eqn:Hc.
  - apply N.eqb_eq in Hc. exfalso. apply Hk. now left.
  - f_equal. apply IH. intros H. apply Hk. now right.
Qed.

End StringFacts.

(** ** The text shortener *)

Section Shorten.

Lemma len_firstn_le (s : pystr) (k : Z) :
  0 <= k -> k <= len s -> len (firstn (Z.to_nat k) s) = k.
Proof.
  intros Hk Hs. unfold len in *. rewrite firstn_length_le; lia.
Qed.

Lemma shorten_fits (text : pystr) (limit : Z) :
  len (strip (replace_char LF [SPACE] text)) <= limit ->
  shorten text limit = strip (replace_char LF [SPACE] text).
Proof.
  intros H. unfold shorten. cbv zeta.
  destruct (Z.leb_spec (len (strip (replace_char LF [SPACE] text))) limit);
    [reflexivity | lia].
Qed.

Lemma shorten_cut (text : pystr) (limit : Z) :
  limit < len (strip (replace_char LF [SPACE] text)) -> 2 <= limit ->
  shorten text limit
  = firstn (Z.to_nat (limit - 1)) (strip (replace_char LF [SPACE] text))
    ++ ELLIPSIS.
Proof.
  intros H H2. unfold shorten. cbv zeta.
  destruct (Z.leb_spec (len (strip (replace_char LF [SPACE] text))) limit);
    [lia |].
  destruct (Z.leb_spec limit 1); [lia |].
  unfold slice_to. destruct (Z.ltb_spec (limit - 1) 0); [lia | reflexivity].
Qed.

Lemma shorten_ellipsis (text : pystr) (limit : Z) :
  limit < len (strip (replace_char LF [SPACE] text)) -> limit <= 1 ->
  shorten text limit = ELLIPSIS.
Proof.
  intros H H1. unfold shorten. cbv zeta.
  destruct (Z.leb_spec (len (strip (replace_char LF [SPACE] text))) limit);
    [lia |].
  destruct (Z.leb_spec limit 1); [reflexivity | lia].
Qed.

End Shorten.

(** C5, as amended.  [shorten] replaces every line feed by a space and strips
    the whitespace around the text; a result of at most [limit] characters is
    returned as it is, whatever [limit] is; a longer one is cut to
    [limit - 1] characters followed by one ellipsis when [1 <= limit], and is
    the ellipsis alone when [limit <= 1].  Lengths are in characters. *)
Theorem shorten_contract (text : pystr) (limit : Z) :
  let flat := List.map (fun c => if (c =? LF)%N then SPACE else c) text in
  let s := strip flat in
  (exists a b, flat = a ++ s ++ b
               /\ forallb is_space a = true /\ forallb is_space b = true)
  /\ ~ In LF s
  /\ (forall c r, s = c :: r -> is_space c = false)
  /\ (forall r c, s = r ++ [c] -> is_space c = false)
  /\ (len s <= limit -> shorten text limit = s)
  /\ (limit < len s -> 1 <= limit ->
      shorten text limit = firstn (Z.to_nat (limit - 1)) s ++ ELLIPSIS
      /\ len (shorten text limit) = limit)
  /\ (limit < len s -> limit <= 1 -> shorten text limit = ELLIPSIS).
Proof.
  cbv zeta. rewrite <- replace_LF_is_map.
  set (flat := replace_char LF [SPACE] text).
  destruct (strip_spec flat) as (a & b & Hflat & Ha & Hb & Hhead & Hlast).
  split; [now exists a, b |].
  split.
  { intros Hin. apply (replace_LF_no_LF text). fold flat. rewrite Hflat.
    apply in_or_app. right. apply in_or_app. now left. }
  split; [exact Hhead |].
  split; [exact Hlast |].
  split; [apply shorten_fits |].
  split.
  - intros Hlong H1.
    assert (Hcut : shorten text limit
                   = firstn (Z.to_nat (limit - 1)) (strip flat) ++ ELLIPSIS).
    { destruct (Z.eq_dec limit 1) as [-> | Hne].
      - now rewrite shorten_ellipsis by (fold flat; lia).
      - apply shorten_cut; fold flat; lia. }
    split; [exact Hcut |].
    rewrite Hcut, len_app, len_firstn_le by lia. unfold ELLIPSIS, len. simpl. lia.
  - apply shorten_ellipsis.
Qed.

(** A text cut to four characters and an ellipsis. *)
Lemma shorten_contract_witness :
  shorten (lit "  hello" ++ LF :: lit "world ") 5 = lit "hell…".
Proof.
  destruct (shorten_contract (lit "  hello" ++ LF :: lit "world ") 5) as (_ & _ & _ & _ & _ & H & _).
  destruct H as [H _]; [reflexivity | discriminate |].
  exact H.
Defined.

(** C5 as stated fails: with [limit = 1] a one-character text fits and is
    returned unchanged, not replaced by the ellipsis; so is the empty text
    with [limit = 0]. *)
Lemma shorten_small_limit_counterexample :
  shorten (lit "a") 1 = lit "a"
  /\ shorten (lit "a") 1 <> ELLIPSIS
  /\ shorten [] 0 = []
  /\ shorten [] 0 <> ELLIPSIS.
Proof. repeat split; vm_compute; discriminate. Qed.

(** C10.  For [1 <= limit] the result of [shorten] has at most [limit]
    characters.  For [limit <= 0] the bound fails on every text that is not
    blank: the result is the one-character ellipsis. *)
Theorem shorten_length_bound (text : pystr) (limit : Z) :
  (1 <= limit -> len (shorten text limit) <= limit)
  /\ (limit <= 0 -> strip (replace_char LF [SPACE] text) <> [] ->
      shorten text limit = ELLIPSIS /\ limit < len (shorten text limit)).
Proof.
  set (s := strip (replace_char LF [SPACE] text)).
  split.
  - intros H1. destruct (Z.le_gt_cases (len s) limit) as [Hfit | Hlong].
    + rewrite shorten_fits by exact Hfit. exact Hfit.
    + destruct (Z.eq_dec limit 1) as [-> | Hne].
      * rewrite shorten_ellipsis by (fold s; lia). vm_compute. discriminate.
      * rewrite shorten_cut by (fold s; lia).
        rewrite len_app, len_firstn_le by (fold s; lia).
        unfold ELLIPSIS, len. simpl. lia.
  - intros H0 Hne.
    assert (Hlong : limit < len s).
    { destruct s; [congruence | unfold len; simpl; lia]. }
    rewrite shorten_ellipsis by (fold s; lia).
    split; [reflexivity |]. unfold ELLIPSIS, len. simpl. lia.
Qed.

(** The bound at [limit = 3], and its failure at [limit = 0]. *)
Lemma shorten_length_bound_witness :
  len (shorten (lit "breaking news") 3) <= 3
  /\ 0 < len (shorten (lit "breaking news") 0).
Proof.
  split.
  - apply (shorten_length_bound (lit "breaking news") 3). discriminate.
  - apply (shorten_length_bound (lit "breaking news") 0);
      [discriminate | vm_compute; discriminate].
Defined.

(** ** Item selection *)

Lemma dict_entries_filter (l : list value) :
  List.map VDict (dict_entries l) = List.filter is_dict l.
Proof.
  induction l as [| v l IH]; simpl; [reflexivity |].
  destruct v; simpl; try exact IH. now rewrite IH.
Qed.

Lemma pick_truthy (snapshot : dict) :
  truthy (get snapshot (lit "items_ai")) = true ->
  pick_ai_items snapshot = records_of (get snapshot (lit "items_ai")).
Proof.
  intros H. unfold pick_ai_items, py_or. rewrite H. cbn iota. now rewrite H.
Qed.

Lemma pick_falsy (snapshot : dict) :
  truthy (get snapshot (lit "items_ai")) = false ->
  pick_ai_items snapshot = records_of (get snapshot (lit "items")).
Proof.
  intros H. unfold pick_ai_items, py_or. rewrite H. cbn iota.
  destruct (truthy (get snapshot (lit "items"))) eqn:Hf; [reflexivity |].
  destruct (get snapshot (lit "items")) as [| | | | | [|] |];
    try reflexivity; discriminate.
Qed.

(** C3, as amended.  [pick_ai_items] keeps the records of a sequence in
    order and drops its other entries.  It reads [items_ai] alone when that
    is a non-empty sequence.  It falls back to [items], under the same rule,
    when [items_ai] is absent or falsy ([None], an empty sequence, an empty
    string, zero, [False], an empty record).  When [items_ai] is truthy but
    not a sequence the result is empty and [items] is not read. *)
Theorem pick_ai_items_rule (snapshot : dict) :
  let ai := get snapshot (lit "items_ai") in
  let fallback := get snapshot (lit "items") in
  (forall l, List.map VDict (dict_entries l) = List.filter is_dict l)
  /\ (forall l, ai = VList l -> l <> [] ->
      pick_ai_items snapshot = dict_entries l)
  /\ (truthy ai = false -> pick_ai_items snapshot = records_of fallback)
  /\ (truthy ai = true -> (forall l, ai <> VList l) ->
      pick_ai_items snapshot = [])
  /\ ((forall l, ai <> VList l) -> (forall l, fallback <> VList l) ->
      pick_ai_items snapshot = []).
Proof.
  cbv zeta.
  split; [exact dict_entries_filter |].
  split.
  { intros l E Hl. rewrite pick_truthy; rewrite E; [reflexivity |].
    destruct l; [congruence | reflexivity]. }
  split; [apply pick_falsy |].
  split.
  { intros Ht Hai. rewrite pick_truthy by exact Ht.
    destruct (get snapshot (lit "items_ai")) as [| | | | | l |];
      try reflexivity.
    exfalso. now apply (Hai l). }
  intros Hai Hit.
  destruct (truthy (get snapshot (lit "items_ai"))) eqn:Ha.
  - rewrite pick_truthy by exact Ha.
    destruct (get snapshot (lit "items_ai")) as [| | | | | l |];
      try reflexivity.
    exfalso. now apply (Hai l).
  - rewrite pick_falsy by exact Ha.
    destruct (get snapshot (lit "items")) as [| | | | | l |];
      try reflexivity.
    exfalso. now apply (Hit l).
Qed.

(** The snapshot of the repository's test: [items_ai] wins over [items]. *)
Lemma pick_ai_items_rule_witness :
  pick_ai_items Samples.snapshot_ai_and_items = [[(lit "title", VStr (lit "A"))]].
Proof.
  destruct (pick_ai_items_rule Samples.snapshot_ai_and_items) as (_ & H & _).
  apply (H [VDict [(lit "title", VStr (lit "A"))]; VInt 7]);
    [reflexivity | discriminate].
Defined.

(** C3 as stated fails twice.  An [items_ai] that is present and is an empty
    sequence is not used exclusively: the records of [items] are returned.
    An [items_ai] that is not a sequence but is truthy does not fall back to
    [items]: nothing is returned. *)
Lemma pick_ai_items_counterexample :
  (get Samples.snapshot_empty_ai (lit "items_ai") = VList []
   /\ pick_ai_items Samples.snapshot_empty_ai = [[(lit "title", VStr (lit "B"))]]
   /\ pick_ai_items Samples.snapshot_empty_ai
      <> records_of (get Samples.snapshot_empty_ai (lit "items_ai")))
  /\ (get Samples.snapshot_text_ai (lit "items_ai") = VStr (lit "none yet")
      /\ pick_ai_items Samples.snapshot_text_ai = []
      /\ pick_ai_items Samples.snapshot_text_ai
         <> records_of (get Samples.snapshot_text_ai (lit "items"))).
Proof. repeat split; vm_compute; discriminate. Qed.

(** ** The timestamp normalizer *)

Lemma pad2_two_digits (n : Z) :
  0 <= n < 100 ->
  pad2 n = [Z.to_N (48 + n / 10); Z.to_N (48 + n mod 10)].
Proof.
  intros H. rewrite <- (Z2Nat.id n) by lia.
  assert (Hk : (Z.to_nat n < 100)%nat) by lia.
  remember (Z.to_nat n) as k eqn:Ek. clear Ek H n.
  do 100 (destruct k as [| k]; [vm_compute; reflexivity |]). lia.
Qed.

Lemma replace_Z_app (a b : pystr) : replace_Z (a ++ b) = replace_Z a ++ replace_Z b.
Proof. unfold replace_Z, replace_char. apply flat_map_app. Qed.

(** The zone's offset takes three values, and the last of its changes
    leaves UTC+8. *)
Lemma utcoffset_at_values (utc : Z) :
  ZoneInfo.utcoffset_at utc = 29143
  \/ ZoneInfo.utcoffset_at utc = 28800
  \/ ZoneInfo.utcoffset_at utc = 32400.
Proof.
  unfold ZoneInfo.utcoffset_at, ZoneInfo.transitions.
  cbn [ZoneInfo.utcoffset_from].
  repeat match goal with
         | |- context [if ?b then _ else _] => destruct b
         end; auto.
Qed.

Lemma utcoffset_at_modern (utc : Z) :
  ZoneInfo.LAST_TRANSITION <= utc -> ZoneInfo.utcoffset_at utc = 28800.
Proof.
  intros H.
  assert (L : ZoneInfo.LAST_TRANSITION = 684867600) by reflexivity.
  rewrite L in H. clear L.
  unfold ZoneInfo.utcoffset_at.
  let table := eval vm_compute in ZoneInfo.transitions in
  change ZoneInfo.transitions with table.
  cbn [ZoneInfo.utcoffset_from].
  repeat match goal with
         | |- context [?x <? ?y] => destruct (Z.ltb_spec x y); [lia |]
         end.
  reflexivity.
Qed.

Lemma representable_spec (t : Z) :
  ZoneInfo.representable t = true
  <-> ZoneInfo.timestamp 1 1 1 0 0 0 <= t
      <= ZoneInfo.timestamp 9999 12 31 23 59 59.
Proof. unfold ZoneInfo.representable. lia. Qed.

(** C6, as amended.  [parse_iso_to_bj] returns ["--:--"] for [None] and for
    the empty string.  A string the runtime does not parse, or cannot move to the
    target zone, is returned unchanged: the function never raises.  A string
    that parses, with every [Z] read as [+00:00], is rendered as
    [MM-DD HH:MM] from the fields of its time in Asia/Shanghai, two digits
    each.  Where the runtime converts by the zone database, that time is the
    one of UTC+8 for every instant from 1991-09-14T17:00:00Z on; an instant
    whose time there is past the year 9999 is returned unchanged; and while
    daylight saving time was in force the time is the one of UTC+9.  With
    the test's timestamp, one o'clock UTC shows as nine; so does midnight
    UTC of 1 July 1988. *)
Theorem parse_iso_to_bj_contract {R : Runtime} :
  parse_iso_to_bj None = lit "--:--"
  /\ parse_iso_to_bj (Some []) = lit "--:--"
  /\ (forall s, s <> [] -> fromisoformat (replace_Z s) = None ->
      parse_iso_to_bj (Some s) = s)
  /\ (forall s dt, s <> [] -> fromisoformat (replace_Z s) = Some dt ->
      astimezone_shanghai dt = None -> parse_iso_to_bj (Some s) = s)
  /\ (forall s dt bj, s <> [] -> fromisoformat (replace_Z s) = Some dt ->
      astimezone_shanghai dt = Some bj ->
      parse_iso_to_bj (Some s)
      = pad2 (month bj) ++ lit "-" ++ pad2 (day bj) ++ lit " "
        ++ pad2 (hour bj) ++ lit ":" ++ pad2 (minute bj))
  /\ (forall n, 0 <= n < 100 ->
      pad2 n = [Z.to_N (48 + n / 10); Z.to_N (48 + n mod 10)])
  /\ (forall s, replace_Z (s ++ lit "Z") = replace_Z s ++ lit "+00:00")
  /\ (fromisoformat (lit "2026-02-23T01:00:00+00:00")
      = Some (mk_datetime 2026 2 23 1 0 0 0 (Some 0)) ->
      astimezone_shanghai (mk_datetime 2026 2 23 1 0 0 0 (Some 0))
      = Some (mk_datetime 2026 2 23 9 0 0 0 (Some 28800)) ->
      parse_iso_to_bj (Some (lit "2026-02-23T01:00:00Z")) = lit "02-23 09:00")
  /\ ((forall dt offset, utcoffset dt = Some offset ->
       astimezone_shanghai dt = ZoneInfo.astimezone dt offset) ->
      (forall s dt offset,
        s <> [] -> fromisoformat (replace_Z s) = Some dt ->
        utcoffset dt = Some offset ->
        let utc := ZoneInfo.utc_of dt offset in
        ZoneInfo.LAST_TRANSITION <= utc ->
        (utc + 28800 <= ZoneInfo.timestamp 9999 12 31 23 59 59 ->
         parse_iso_to_bj (Some s)
         = strftime_md_hm
             (ZoneInfo.wall_clock (utc + 28800) (microsecond dt) 28800))
        /\ (ZoneInfo.timestamp 9999 12 31 23 59 59 < utc + 28800 ->
            parse_iso_to_bj (Some s) = s))
      /\ (forall s dt offset,
          s <> [] -> fromisoformat (replace_Z s) = Some dt ->
          utcoffset dt = Some offset ->
          let utc := ZoneInfo.utc_of dt offset in
          ZoneInfo.timestamp 1988 4 16 18 0 0 <= utc
          < ZoneInfo.timestamp 1988 9 10 17 0 0 ->
          parse_iso_to_bj (Some s)
          = strftime_md_hm
              (ZoneInfo.wall_clock (utc + 32400) (microsecond dt) 32400))
      /\ (fromisoformat (lit "2026-02-23T01:00:00+00:00")
          = Some (mk_datetime 2026 2 23 1 0 0 0 (Some 0)) ->
          parse_iso_to_bj (Some (lit "2026-02-23T01:00:00Z"))
          = lit "02-23 09:00")
      /\ (fromisoformat (lit "1988-07-01T00:00:00+00:00")
          = Some (mk_datetime 1988 7 1 0 0 0 0 (Some 0)) ->
          parse_iso_to_bj (Some (lit "1988-07-01T00:00:00Z"))
          = lit "07-01 09:00")).
Proof.
  assert (Hne : forall s : pystr, s <> [] -> negb (nonempty s) = false).
  { intros [| c s] H; [congruence | reflexivity]. }
  split; [reflexivity |].
  split; [reflexivity |].
  split.
  { intros s Hs Hp. unfold parse_iso_to_bj. now rewrite (Hne s Hs), Hp. }
  split.
  { intros s dt Hs Hp Hz. unfold parse_iso_to_bj.
    now rewrite (Hne s Hs), Hp, Hz. }
  split.
  { intros s dt bj Hs Hp Hz. unfold parse_iso_to_bj.
    now rewrite (Hne s Hs), Hp, Hz. }
  split; [exact pad2_two_digits |].
  split.
  { intros s. now rewrite replace_Z_app. }
  split.
  { intros Hp Hz. unfold parse_iso_to_bj.
    change (replace_Z (lit "2026-02-23T01:00:00Z"))
      with (lit "2026-02-23T01:00:00+00:00").
    cbn [negb nonempty lit]. rewrite Hp, Hz. reflexivity. }
  intros Hzone.
  assert (Hmin : ZoneInfo.timestamp 1 1 1 0 0 0 = -62135596800)
    by reflexivity.
  assert (Hmax : ZoneInfo.timestamp 9999 12 31 23 59 59 = 253402300799)
    by reflexivity.
  assert (Hlast : ZoneInfo.LAST_TRANSITION = 684867600) by reflexivity.
  split.
  { intros s dt offset Hs Hp Ho utc Hutc.
    pose proof (utcoffset_at_modern utc Hutc) as Hoff.
    unfold parse_iso_to_bj.
    rewrite (Hne s Hs), Hp, (Hzone dt offset Ho).
    unfold ZoneInfo.astimezone. fold utc. rewrite Hoff.
    rewrite Hlast in Hutc.
    split; intros Hend.
    - assert (E1 : ZoneInfo.representable utc = true)
        by (apply representable_spec; lia).
      assert (E2 : ZoneInfo.representable (utc + 28800) = true)
        by (apply representable_spec; lia).
      now rewrite E1, E2.
    - destruct (ZoneInfo.representable utc); [| reflexivity].
      assert (E2 : ZoneInfo.representable (utc + 28800) = false).
      { destruct (ZoneInfo.representable (utc + 28800)) eqn:E;
          [| reflexivity].
        apply representable_spec in E. lia. }
      now rewrite E2. }
  split.
  { intros s dt offset Hs Hp Ho utc Hutc.
    assert (Hoff : ZoneInfo.utcoffset_at utc = 32400).
    { assert (A : ZoneInfo.timestamp 1988 4 16 18 0 0 = 577216800)
        by reflexivity.
      assert (B : ZoneInfo.timestamp 1988 9 10 17 0 0 = 589914000)
        by reflexivity.
      rewrite A, B in Hutc.
      unfold ZoneInfo.utcoffset_at.
      let table := eval vm_compute in ZoneInfo.transitions in
  change ZoneInfo.transitions with table.
      cbn [ZoneInfo.utcoffset_from].
      repeat match goal with
             | |- context [?x <? ?y] =>
               destruct (Z.ltb_spec x y); [first [lia | reflexivity] |]
             end.
      lia. }
    assert (A : ZoneInfo.timestamp 1988 4 16 18 0 0 = 577216800)
      by reflexivity.
    assert (B : ZoneInfo.timestamp 1988 9 10 17 0 0 = 589914000)
      by reflexivity.
    rewrite A, B in Hutc.
    unfold parse_iso_to_bj.
    rewrite (Hne s Hs), Hp, (Hzone dt offset Ho).
    unfold ZoneInfo.astimezone. fold utc. rewrite Hoff.
    assert (E1 : ZoneInfo.representable utc = true)
      by (apply representable_spec; lia).
    assert (E2 : ZoneInfo.representable (utc + 32400) = true)
      by (apply representable_spec; lia).
    now rewrite E1, E2. }
  split.
  { intros Hp. unfold parse_iso_to_bj.
    change (replace_Z (lit "2026-02-23T01:00:00Z"))
      with (lit "2026-02-23T01:00:00+00:00").
    cbn [negb nonempty lit].
    rewrite Hp, (Hzone (mk_datetime 2026 2 23 1 0 0 0 (Some 0)) 0 eq_refl).
    reflexivity. }
  intros Hp. unfold parse_iso_to_bj.
  change (replace_Z (lit "1988-07-01T00:00:00Z"))
    with (lit "1988-07-01T00:00:00+00:00").
  cbn [negb nonempty lit].
  rewrite Hp, (Hzone (mk_datetime 1988 7 1 0 0 0 0 (Some 0)) 0 eq_refl).
  reflexivity.
Qed.

(** The repository's test, on the runtime of the examples. *)
Lemma parse_iso_to_bj_contract_witness :
  @parse_iso_to_bj Host.runtime (Some (lit "2026-02-23T01:00:00Z"))
  = lit "02-23 09:00".
Proof.
  destruct (@parse_iso_to_bj_contract Host.runtime)
    as (_ & _ & _ & _ & _ & _ & _ & _ & H).
  destruct H as (_ & _ & H & _).
  - intros dt offset E. unfold astimezone_shanghai, Host.runtime,
      Host.host_astimezone. now rewrite E.
  - apply H. reflexivity.
Defined.

(** C6 as stated fails: the rendering is not always the one of UTC+8.  At
    midnight UTC of 1 July 1988 daylight saving time is in force in Asia/Shanghai: the
    function shows nine o'clock, where UTC+8 has eight. *)
Lemma parse_iso_to_bj_dst_counterexample :
  @parse_iso_to_bj Host.runtime (Some (lit "1988-07-01T00:00:00Z"))
  = lit "07-01 09:00"
  /\ strftime_md_hm
       (ZoneInfo.wall_clock (ZoneInfo.timestamp 1988 7 1 0 0 0 + 28800)
          0 28800)
     = lit "07-01 08:00"
  /\ @parse_iso_to_bj Host.runtime (Some (lit "1988-07-01T00:00:00Z"))
     <> strftime_md_hm
          (ZoneInfo.wall_clock (ZoneInfo.timestamp 1988 7 1 0 0 0 + 28800)
             0 28800).
Proof. repeat split; vm_compute; try reflexivity; discriminate. Qed.

(** Before 1901 the zone is on local mean time: midnight UTC shows as
    08:05. *)
Example parse_iso_to_bj_local_mean_time :
  @parse_iso_to_bj Host.runtime (Some (lit "1900-01-01T00:00:00Z"))
  = lit "01-01 08:05".
Proof. vm_compute. reflexivity. Qed.

(** A time of day whose time in the zone would be past the year 9999 is
    returned as it came. *)
Example parse_iso_to_bj_out_of_range :
  @parse_iso_to_bj Host.runtime (Some (lit "9999-12-31T23:00:00Z"))
  = lit "9999-12-31T23:00:00Z".
Proof. vm_compute. reflexivity. Qed.

(** ** Texts that can be encoded *)

Section Encoding.

Lemma join_cons_text (sep p : pystr) (rest : list pystr) :
  join sep (p :: rest)
  = p ++ match rest with [] => [] | _ => sep ++ join sep rest end.
Proof. destruct rest; simpl; [now rewrite app_nil_r | reflexivity]. Qed.

Lemma shorten_cases_text (text : pystr) (limit : Z) :
  let s := strip (replace_char LF [SPACE] text) in
  (len s <= limit /\ shorten text limit = s)
  \/ (limit < len s /\ limit <= 1 /\ shorten text limit = ELLIPSIS)
  \/ (limit < len s /\ 2 <= limit
      /\ shorten text limit = firstn (Z.to_nat (limit - 1)) s ++ ELLIPSIS).
Proof.
  cbv zeta.
  destruct (Z.le_gt_cases (len (strip (replace_char LF [SPACE] text))) limit)
    as [Hfit | Hlong].
  - left. split; [exact Hfit | now apply shorten_fits].
  - right. destruct (Z.le_gt_cases limit 1) as [H1 | H2].
    + left. repeat split; try lia. apply shorten_ellipsis; lia.
    + right. repeat split; try lia. apply shorten_cut; lia.
Qed.

Lemma utf8_encode_spec (s : pystr) :
  utf8_encode s
  = if encodable s then Some (flat_map utf8_bytes_cp s) else None.
Proof.
  induction s as [| c s IH]; [reflexivity |].
  cbn [utf8_encode encodable forallb flat_map]. unfold utf8_encode_cp.
  fold (encodable s). rewrite IH.
  destruct (is_surrogate c); [reflexivity |].
  destruct (encodable s); reflexivity.
Qed.

Lemma utf8_len_spec (s : pystr) :
  utf8_len s = if encodable s then Some (utf8_size s) else None.
Proof.
  unfold utf8_len, utf8_size. rewrite utf8_encode_spec.
  destruct (encodable s); reflexivity.
Qed.

Lemma utf8_len_some (s : pystr) (n : Z) :
  utf8_len s = Some n -> encodable s = true /\ n = utf8_size s.
Proof.
  rewrite utf8_len_spec. destruct (encodable s); [| discriminate].
  intros E. injection E as <-. split; reflexivity.
Qed.

Lemma utf8_len_none (s : pystr) : utf8_len s = None <-> encodable s = false.
Proof.
  rewrite utf8_len_spec. destruct (encodable s); split; congruence.
Qed.

Lemma utf8_size_app (a b : pystr) : utf8_size (a ++ b) = utf8_size a + utf8_size b.
Proof. unfold utf8_size. rewrite flat_map_app, length_app. lia. Qed.

Lemma utf8_size_nonneg (a : pystr) : 0 <= utf8_size a.
Proof. unfold utf8_size. lia. Qed.

Lemma encodable_app (a b : pystr) :
  encodable (a ++ b) = encodable a && encodable b.
Proof. apply forallb_app. Qed.

Lemma space_not_surrogate (c : codepoint) :
  is_space c = true -> is_surrogate c = false.
Proof.
  unfold is_space, is_surrogate. intros H.
  destruct (N.leb_spec 55296 c) as [Hc |]; [| reflexivity].
  exfalso.
  repeat (apply orb_prop in H as [H | H]);
    repeat match goal with
           | H : (_ && _)%bool = true |- _ => apply andb_prop in H as [? ?]
           | H : (_ <=? _)%N = true |- _ => apply N.leb_le in H
           | H : (_ =? _)%N = true |- _ => apply N.eqb_eq in H
           end; lia.
Qed.

Lemma encodable_spaces (a : pystr) : forallb is_space a = true -> encodable a = true.
Proof.
  unfold encodable. induction a as [| c a IH]; [reflexivity |].
  cbn [forallb]. intros H. apply andb_prop in H as [Hc Ha].
  now rewrite (space_not_surrogate c Hc), IH.
Qed.

(** [strip] neither removes nor adds a surrogate. *)
Lemma encodable_strip (s : pystr) : encodable (strip s) = encodable s.
Proof.
  destruct (strip_spec s) as (a & b & E & Ha & Hb & _).
  rewrite E at 2. rewrite !encodable_app.
  now rewrite (encodable_spaces a Ha), (encodable_spaces b Hb), andb_true_r.
Qed.

Lemma encodable_join (lines : list pystr) :
  encodable (join [LF] lines) = forallb encodable lines.
Proof.
  induction lines as [| p rest IH]; [reflexivity |].
  rewrite join_cons_text. destruct rest as [| q rest].
  - cbn [forallb]. now rewrite app_nil_r, andb_true_r.
  - rewrite !encodable_app, IH. reflexivity.
Qed.

Lemma encodable_firstn (n : nat) (s : pystr) :
  encodable s = true -> encodable (firstn n s) = true.
Proof.
  unfold encodable. revert s. induction n as [| n IH]; intros [| c s];
    cbn [firstn forallb]; try reflexivity.
  intros H. apply andb_prop in H as [Hc Hs]. now rewrite Hc, IH.
Qed.

Lemma encodable_bytes (t : string) : encodable (bytes_of_string t) = true.
Proof.
  unfold encodable, bytes_of_string.
  induction (list_ascii_of_string t) as [| a l IH]; [reflexivity |].
  cbn [List.map forallb]. rewrite IH, andb_true_r.
  unfold is_surrogate. pose proof (N_ascii_bounded a).
  destruct (N.leb_spec 55296 (N_of_ascii a)); [lia | reflexivity].
Qed.

Lemma encodable_str_of_int (n : Z) : encodable (str_of_int n) = true.
Proof. apply encodable_bytes. Qed.

(** A shorter limit shows no character of a title that a longer one did not
    show, the ellipsis apart. *)
Lemma encodable_shorten_mono (text : pystr) (limit limit' : Z) :
  limit' <= limit ->
  encodable (shorten text limit) = true ->
  encodable (shorten text limit') = true.
Proof.
  intros Hle.
  pose proof (shorten_cases_text text limit) as C.
  pose proof (shorten_cases_text text limit') as C'.
  cbv zeta in C, C'.
  set (s := strip (replace_char LF [SPACE] text)) in *.
  assert (Hcut : forall k : Z, encodable (firstn (Z.to_nat k) s) = true ->
            forall k', k' <= k ->
            encodable (firstn (Z.to_nat k') s ++ ELLIPSIS) = true).
  { intros k Hk k' Hk'. rewrite encodable_app.
    replace (firstn (Z.to_nat k') s)
      with (firstn (Z.to_nat k') (firstn (Z.to_nat k) s))
      by (rewrite firstn_firstn; f_equal; lia).
    now rewrite encodable_firstn. }
  destruct C as [(Hfit & ->) | [(Hlong & H1 & ->) | (Hlong & H2 & ->)]];
    destruct C' as [(Hfit' & ->) | [(Hlong' & H1' & ->) | (Hlong' & H2' & ->)]];
    intros He; try reflexivity; try assumption; try lia.
  - rewrite encodable_app. now rewrite encodable_firstn.
  - rewrite encodable_app in He. apply andb_prop in He as [He _].
    apply (Hcut (limit - 1) He). lia.
Qed.

End Encoding.

Section EncodableRender.
Context {R : Runtime}.

Lemma encodable_item_block_mono (idx idx' : Z) (item : dict)
    (limit limit' : Z) :
  limit' <= limit ->
  forallb encodable (item_block idx item limit) = true ->
  forallb encodable (item_block idx' item limit') = true.
Proof.
  intros Hle. unfold item_block. cbv zeta.
  match goal with
  | |- context [shorten ?t limit] =>
    pose proof (encodable_shorten_mono t limit limit' Hle) as Hs;
    set (title := shorten t limit) in *;
    set (title' := shorten t limit') in *
  end.
  match goal with
  | |- context [if nonempty ?u then _ else _] => destruct (nonempty u)
  end; cbn [forallb]; rewrite !encodable_app, !encodable_str_of_int;
    cbn [andb]; intros H;
    repeat match goal with
           | H : (_ && _)%bool = true |- _ => apply andb_prop in H as [? ?]
           end;
    repeat match goal with
           | H : ?x = true |- context [?x] => rewrite H
           end;
    rewrite ?Hs by assumption; reflexivity.
Qed.

Lemma encodable_blocks_mono (items : list dict) :
  forall start start' limit limit' k,
    limit' <= limit ->
    forallb encodable (enumerate_blocks start items limit) = true ->
    forallb encodable (enumerate_blocks start' (firstn k items) limit') = true.
Proof.
  induction items as [| item rest IH]; intros start start' limit limit' k Hle.
  - now rewrite firstn_nil.
  - destruct k as [| k]; [reflexivity |].
    cbn [firstn enumerate_blocks]. rewrite !forallb_app.
    intros H. apply andb_prop in H as [Hb Hr].
    rewrite (encodable_item_block_mono start start' item limit limit' Hle Hb).
    now rewrite (IH (start + 1) (start' + 1) limit limit' k Hle Hr).
Qed.

Lemma encodable_remark (count : Z) :
  encodable (REMARK_PRE ++ str_of_int count ++ REMARK_POST) = true.
Proof. now rewrite !encodable_app, encodable_str_of_int. Qed.

(** What a rendering needs to be encodable: its header and the lines of the
    items it shows. *)
Lemma encodable_render (header : list pystr) (items : list dict)
    (total shown title_limit : Z) :
  encodable (render header items total shown title_limit)
  = forallb encodable header
    && forallb encodable (_item_lines items shown title_limit).
Proof.
  unfold render. cbv zeta. rewrite encodable_strip, encodable_join, forallb_app.
  destruct (total >? shown); [| reflexivity].
  rewrite forallb_app. cbn [forallb]. rewrite encodable_remark.
  cbn [encodable forallb andb]. now rewrite andb_true_r.
Qed.

(** Fewer items and shorter titles keep a rendering encodable. *)
Lemma encodable_render_mono (header : list pystr) (items : list dict)
    (total shown title_limit shown' title_limit' : Z) :
  0 <= shown' <= shown -> title_limit' <= title_limit ->
  encodable (render header items total shown title_limit) = true ->
  encodable (render header items total shown' title_limit') = true.
Proof.
  intros Hs Ht. rewrite !encodable_render. intros H.
  apply andb_prop in H as [Hh Hb]. rewrite Hh. cbn [andb].
  unfold _item_lines, slice_to in *.
  destruct (Z.ltb_spec shown 0); [lia |].
  destruct (Z.ltb_spec shown' 0); [lia |].
  replace (firstn (Z.to_nat shown') items)
    with (firstn (Z.to_nat shown') (firstn (Z.to_nat shown) items))
    by (rewrite firstn_firstn; f_equal; lia).
  eapply encodable_blocks_mono; eauto.
Qed.

End EncodableRender.

(** ** The size-fitting loop *)

Section Loop.
Context {R : Runtime}.
Variables (header : list pystr) (items : list dict).
Variables (total min_items byte_limit : Z).

Local Abbreviation body := (loop_body header items total min_items byte_limit).
Local Abbreviation run :=
  (fun fuel => while_true fuel header items total min_items byte_limit).
Local Abbreviation text := (render header items total).

Lemma loop_body_continue (shown title_limit shown' title_limit' : Z) :
  body shown title_limit = Continue shown' title_limit' ->
  (exists size, utf8_len (text shown title_limit) = Some size
                /\ byte_limit < size)
  /\ ((min_items < shown /\ shown' = shown - 1 /\ title_limit' = title_limit)
      \/ (shown <= min_items /\ 20 < title_limit
          /\ shown' = shown /\ title_limit' = title_limit - 4)).
Proof.
  unfold loop_body. cbv zeta.
  destruct (utf8_len (text shown title_limit)) as [size |]; [| discriminate].
  destruct (Z.leb_spec size byte_limit); [discriminate |].
  destruct (Z.gtb_spec shown min_items).
  - intros E. injection E as <- <-.
    split; [exists size; split; [reflexivity | lia] | left; lia].
  - destruct (Z.gtb_spec title_limit 20); [| discriminate].
    intros E. injection E as <- <-.
    split; [exists size; split; [reflexivity | lia] | right; lia].
Qed.

Lemma loop_body_return (shown title_limit : Z) (content : pystr) (shown' : Z) :
  body shown title_limit = Return content shown' ->
  shown' = shown /\ content = text shown title_limit
  /\ exists size,
       utf8_len content = Some size
       /\ (size <= byte_limit
           \/ (byte_limit < size /\ shown <= min_items /\ title_limit <= 20)).
Proof.
  unfold loop_body. cbv zeta.
  destruct (utf8_len (text shown title_limit)) as [size |] eqn:Hlen;
    [| discriminate].
  destruct (Z.leb_spec size byte_limit).
  - intros E. injection E as <- <-. repeat split.
    exists size. split; [exact Hlen | now left].
  - destruct (Z.gtb_spec shown min_items); [discriminate |].
    destruct (Z.gtb_spec title_limit 20); [discriminate |].
    intros E. injection E as <- <-. repeat split.
    exists size. split; [exact Hlen | right; lia].
Qed.

Lemma loop_body_raise (shown title_limit : Z) (e : exn) :
  body shown title_limit = Raise e <->
  e = UnicodeEncodeError /\ utf8_len (text shown title_limit) = None.
Proof.
  unfold loop_body. cbv zeta.
  destruct (utf8_len (text shown title_limit)) as [size |].
  - split; [| intros [_ H]; discriminate].
    destruct (size <=? byte_limit); [discriminate |].
    destruct (shown >? min_items); [discriminate |].
    destruct (title_limit >? 20); discriminate.
  - split; [intros E; injection E as <-; now split | intros [-> _]; reflexivity].
Qed.

Lemma loop_measure_decreases (shown title_limit shown' title_limit' : Z) :
  body shown title_limit = Continue shown' title_limit' ->
  (loop_measure min_items shown' title_limit'
   < loop_measure min_items shown title_limit)%nat.
Proof.
  intros H. apply loop_body_continue in H as [_ H]. unfold loop_measure. lia.
Qed.

(** With more passes allowed than the measure, the loop ends: it returns or
    it raises; and the only exception is the one of [encode]. *)
Lemma while_true_ends (fuel : nat) :
  forall shown title_limit,
    (loop_measure min_items shown title_limit < fuel)%nat ->
    exists r,
      run fuel shown title_limit = Some r
      /\ (forall e, r = inl e -> e = UnicodeEncodeError).
Proof.
  induction fuel as [| fuel IH]; intros shown title_limit Hfuel; [lia |].
  simpl. destruct (body shown title_limit) as [c s | s t | e] eqn:Hb.
  - eexists. split; [reflexivity | discriminate].
  - apply IH. apply loop_measure_decreases in Hb. lia.
  - apply loop_body_raise in Hb as [-> _].
    eexists. split; [reflexivity |]. intros e E. now injection E.
Qed.

(** What the loop returns is the text rendered at the variables it stopped
    at, and that text has an encoding. *)
Lemma while_true_returned (fuel : nat) :
  forall shown title_limit content shown',
    run fuel shown title_limit = Some (inr (content, shown')) ->
    min_items <= shown ->
    exists title_limit' size,
      content = text shown' title_limit'
      /\ min_items <= shown' <= shown
      /\ title_limit' <= title_limit
      /\ (title_limit - title_limit') mod 4 = 0
      /\ (16 < title_limit -> 16 < title_limit')
      /\ utf8_len content = Some size
      /\ (size <= byte_limit
          \/ (byte_limit < size
              /\ shown' = min_items /\ title_limit' <= 20)).
Proof.
  induction fuel as [| fuel IH]; intros shown title_limit content shown';
    [discriminate |].
  simpl. destruct (body shown title_limit) as [c s | s t | e] eqn:Hb.
  - apply loop_body_return in Hb as (-> & -> & size & Hlen & Hend).
    intros E Hmin. injection E as <- <-.
    exists title_limit, size.
    split; [reflexivity |]. split; [lia |]. split; [lia |].
    split; [now rewrite Z.sub_diag |]. split; [tauto |].
    split; [exact Hlen |].
    destruct Hend as [Hfit | Hend]; [now left | right; lia].
  - apply loop_body_continue in Hb as [_ Hstep]. intros E Hmin.
    destruct (IH s t content shown' E ltac:(lia))
      as (t' & size & Hc & Hs & Ht & Hmod & Hlow & Hlen & Hend).
    exists t', size. split; [exact Hc |].
    assert (Hmod' : (title_limit - t') mod 4 = 0).
    { destruct Hstep as [(? & -> & ->) | (? & ? & -> & ->)]; [exact Hmod |].
      replace (title_limit - t') with (title_limit - 4 - t' + 1 * 4) by lia.
      now rewrite Z.mod_add by lia. }
    split; [lia |]. split; [lia |]. split; [exact Hmod' |].
    split; [intros; apply Hlow; lia |]. split; [exact Hlen | exact Hend].
  - discriminate.
Qed.

(** The loop raises only if a text it came to render has no encoding. *)
Lemma while_true_raised (fuel : nat) :
  forall shown title_limit e,
    run fuel shown title_limit = Some (inl e) ->
    min_items <= shown ->
    exists shown' title_limit',
      min_items <= shown' <= shown /\ title_limit' <= title_limit
      /\ utf8_len (text shown' title_limit') = None.
Proof.
  induction fuel as [| fuel IH]; intros shown title_limit e; [discriminate |].
  simpl. destruct (body shown title_limit) as [c s | s t | e'] eqn:Hb.
  - discriminate.
  - apply loop_body_continue in Hb as [_ Hstep]. intros E Hmin.
    destruct (IH s t e E ltac:(lia)) as (s' & t' & Hs & Ht & Hnone).
    exists s', t'. split; [lia |]. split; [lia | exact Hnone].
  - apply loop_body_raise in Hb as [_ Hnone]. intros _ Hmin.
    exists shown, title_limit. split; [lia |]. split; [lia | exact Hnone].
Qed.

(** A first text without an encoding makes the first pass raise. *)
Lemma while_true_raises_at_once (fuel : nat) (shown title_limit : Z) :
  utf8_len (text shown title_limit) = None ->
  run (S fuel) shown title_limit = Some (inl UnicodeEncodeError).
Proof.
  intros Hnone. simpl.
  assert (Hb : body shown title_limit = Raise UnicodeEncodeError)
    by (apply loop_body_raise; now split).
  now rewrite Hb.
Qed.

Lemma while_true_more_fuel (fuel fuel' : nat) (shown title_limit : Z)
    (r : result (pystr * Z)) :
  run fuel shown title_limit = Some r -> (fuel <= fuel')%nat ->
  run fuel' shown title_limit = Some r.
Proof.
  revert fuel' shown title_limit.
  induction fuel as [| fuel IH]; intros fuel' shown title_limit; [discriminate |].
  destruct fuel' as [| fuel']; [lia |]. simpl.
  destruct (body shown title_limit); [tauto | | tauto].
  intros H Hle. apply IH; [exact H | lia].
Qed.

End Loop.

Section Builder.
Context {R : Runtime}.

Lemma initial_shown_bounds (top_n total : Z) :
  0 <= total ->
  (if total =? 0 then 0 else 1) <= initial_shown top_n total <= total.
Proof.
  intros H. unfold initial_shown. cbv zeta.
  destruct (Z.eqb_spec total 0); destruct (Z.gtb_spec (Z.min (Z.max top_n 0) total) 0);
    lia.
Qed.

(** Every call ends, with a pair or with the exception of [encode]. *)
Lemma build_digest_markdown_ends (snapshot : dict) (keyword : pystr)
    (top_n byte_limit : Z) (site_url : option pystr) :
  exists r,
    build_digest_markdown snapshot keyword top_n byte_limit site_url = Some r
    /\ (forall e, r = inl e -> e = UnicodeEncodeError).
Proof.
  unfold build_digest_markdown. cbv zeta. apply while_true_ends. lia.
Qed.

(** A returned pair in terms of the variables the loop stopped at. *)
Lemma build_digest_markdown_returned (snapshot : dict) (keyword : pystr)
    (top_n byte_limit : Z) (site_url : option pystr)
    (content : pystr) (shown : Z) :
  build_digest_markdown snapshot keyword top_n byte_limit site_url
  = Some (inr (content, shown)) ->
  let items := pick_ai_items snapshot in
  let total := Z.of_nat (List.length items) in
  let header := _header_lines snapshot keyword total site_url in
  let min_items := if total =? 0 then 0 else 1 in
  exists title_limit size,
    content = render header items total shown title_limit
    /\ min_items <= shown <= total
    /\ shown <= initial_shown top_n total
    /\ (title_limit = 18 \/ title_limit = 22 \/ title_limit = 26
        \/ title_limit = 30 \/ title_limit = 34 \/ title_limit = 38
        \/ title_limit = 42 \/ title_limit = 46)
    /\ utf8_len content = Some size
    /\ (size <= byte_limit
        \/ (byte_limit < size /\ shown = min_items /\ title_limit = 18)).
Proof.
  intros Hb. cbv zeta. unfold build_digest_markdown in Hb. cbv zeta in Hb.
  set (items := pick_ai_items snapshot) in *.
  set (total := Z.of_nat (List.length items)) in *.
  set (min_items := if total =? 0 then 0 else 1) in *.
  pose proof (initial_shown_bounds top_n total ltac:(lia)) as Hinit.
  fold min_items in Hinit.
  apply while_true_returned in Hb
    as (t & size & Hc & Hs & Ht & Hmod & Hlow & Hlen & Hend); [| lia].
  exists t, size. split; [exact Hc |]. split; [lia |]. split; [lia |].
  assert (Ht16 : 16 < t) by (apply Hlow; lia).
  assert (Hcases : t = 18 \/ t = 22 \/ t = 26 \/ t = 30 \/ t = 34 \/ t = 38
                   \/ t = 42 \/ t = 46).
  { assert (E : 46 - t = 4 * ((46 - t) / 4)).
    { apply Z_div_exact_full_2; [lia | exact Hmod]. }
    lia. }
  split; [exact Hcases |]. split; [exact Hlen |].
  destruct Hend as [Hfit | (Hover & -> & H20)]; [now left | right].
  repeat split; [exact Hover | lia].
Qed.

(** The call raises exactly when the text of its first pass has no
    encoding, and returns a pair exactly when it has one. *)
Lemma build_digest_markdown_outcome (snapshot : dict) (keyword : pystr)
    (top_n byte_limit : Z) (site_url : option pystr) :
  (encodable (first_pass_text snapshot keyword top_n site_url) = false ->
   build_digest_markdown snapshot keyword top_n byte_limit site_url
   = Some (inl UnicodeEncodeError))
  /\ (encodable (first_pass_text snapshot keyword top_n site_url) = true ->
      exists content shown,
        build_digest_markdown snapshot keyword top_n byte_limit site_url
        = Some (inr (content, shown))).
Proof.
  unfold first_pass_text. cbv zeta. split; intros Henc.
  - unfold build_digest_markdown. cbv zeta.
    apply while_true_raises_at_once. now apply utf8_len_none.
  - destruct (build_digest_markdown_ends snapshot keyword top_n byte_limit site_url)
      as ([e | [c s]] & Hb & _); [| now exists c, s].
    exfalso. pose proof Hb as Hb'.
    unfold build_digest_markdown in Hb'. cbv zeta in Hb'.
    set (items := pick_ai_items snapshot) in *.
    set (total := Z.of_nat (List.length items)) in *.
    pose proof (initial_shown_bounds top_n total ltac:(lia)) as Hinit.
    apply while_true_raised in Hb' as (s' & t' & Hs & Ht & Hnone); [| lia].
    apply utf8_len_none in Hnone.
    rewrite (encodable_render_mono _ items total (initial_shown top_n total) 46
               s' t') in Hnone; try assumption; try discriminate.
    destruct (Z.eqb_spec total 0); lia.
Qed.

End Builder.

(** ** The digest builder *)

Section Rendering.
Context {R : Runtime}.

Lemma join_cons (sep p : pystr) (rest : list pystr) :
  join sep (p :: rest)
  = p ++ match rest with [] => [] | _ => sep ++ join sep rest end.
Proof. destruct rest; simpl; [now rewrite app_nil_r | reflexivity]. Qed.

Lemma strip_anchor (a b : pystr) (c : codepoint) :
  is_space c = false -> strip (a ++ c :: b) = lstrip a ++ c :: rstrip b.
Proof.
  intros Hc. unfold strip.
  now rewrite (lstrip_app_anchor _ _ _ Hc), (rstrip_app_anchor _ _ _ Hc).
Qed.

Lemma lstrip_unspaced (k : pystr) :
  (forall c r, k = c :: r -> is_space c = false) -> lstrip k = k.
Proof.
  destruct k as [| c r]; [reflexivity |]. intros H. simpl.
  now rewrite (H c r eq_refl).
Qed.

(** The header starts with the keyword, when there is one, then the title. *)
Lemma header_lines_shape (snapshot : dict) (keyword : pystr) (total : Z)
    (site_url : option pystr) :
  exists rest,
    _header_lines snapshot keyword total site_url
    = (if nonempty keyword then [keyword] else []) ++ H_TITLE :: rest.
Proof. eexists. reflexivity. Qed.

(** A text whose first line is a keyword with no whitespace in front keeps
    that line through [strip]. *)
Lemma first_line_of_rendered (keyword : pystr) (rest : list pystr) :
  keyword <> [] -> ~ In LF keyword ->
  (forall c r, keyword = c :: r -> is_space c = false) ->
  first_line (strip (join [LF] (keyword :: H_TITLE :: rest))) = keyword.
Proof.
  intros Hne Hlf Hsp.
  rewrite join_cons. rewrite (join_cons _ H_TITLE).
  set (more := match rest with [] => [] | _ => [LF] ++ join [LF] rest end).
  change (H_TITLE ++ more) with (35%N :: tl H_TITLE ++ more).
  replace (keyword ++ [LF] ++ 35%N :: tl H_TITLE ++ more)
    with ((keyword ++ [LF]) ++ 35%N :: tl H_TITLE ++ more)
    by now rewrite <- app_assoc.
  rewrite strip_anchor by reflexivity.
  assert (E : lstrip (keyword ++ [LF]) = keyword ++ [LF]).
  { apply lstrip_unspaced. intros c r Hk.
    destruct keyword as [| k0 kr]; [congruence |].
    injection Hk as <- _. now apply (Hsp k0 kr). }
  rewrite E, <- app_assoc. simpl app.
  now apply first_line_app_LF.
Qed.

(** With nothing selected the loop renders the header alone. *)
Lemma render_nothing (header : list pystr) (title_limit : Z) :
  render header [] 0 0 title_limit = strip (join [LF] header).
Proof. unfold render. simpl. now rewrite app_nil_r. Qed.

End Rendering.

Section HeaderOnly.
Context {R : Runtime}.

Lemma strip_two_anchors (a m b : pystr) (c d : codepoint) :
  is_space c = false -> is_space d = false -> forallb is_space b = true ->
  strip (a ++ c :: m ++ d :: b) = lstrip a ++ c :: m ++ [d].
Proof.
  intros Hc Hd Hb. rewrite strip_anchor by exact Hc.
  rewrite (rstrip_app_anchor _ _ _ Hd). unfold rstrip.
  rewrite (lstrip_all_space (rev b)) by now rewrite forallb_rev_space.
  reflexivity.
Qed.

Ltac reassociate :=
  repeat first [rewrite <- app_assoc | progress cbn [app]]; reflexivity.

Lemma strip_join_header_zero (snapshot : dict) (keyword : pystr)
    (site_url : option pystr) :
  strip (join [LF] (_header_lines snapshot keyword 0 site_url))
  = header_text snapshot keyword 0 site_url.
Proof.
  unfold _header_lines, header_text. cbv zeta.
  set (g := H_GENERATED ++ _ ++ H_BEIJING).
  set (kw := if nonempty keyword then keyword ++ [LF] else []).
  change (str_of_int 0) with [48%N].
  assert (Hsite : forall site : list pystr, forall tail : pystr,
            (site = [] /\ tail = [])
            \/ (exists u, site = [H_DETAILS ++ u ++ lit "](" ++ u ++ lit ")"]
                          /\ tail = [LF] ++ H_DETAILS ++ u ++ lit "](" ++ u ++ lit ")") ->
            strip (join [LF] ((if nonempty keyword then [keyword] else [])
                              ++ [H_TITLE; g; H_COUNT ++ [48%N]] ++ site ++ [[]]))
            = lstrip kw ++ H_TITLE ++ [LF] ++ g ++ [LF] ++ (H_COUNT ++ [48%N]) ++ tail).
  { intros site tail [[-> ->] | (u & -> & ->)].
    - transitivity (strip (kw ++ 35%N :: (tl H_TITLE ++ [LF] ++ g ++ [LF] ++ H_COUNT)
                           ++ 48%N :: [LF])).
      + f_equal. subst kw. destruct (nonempty keyword); cbn [join app];
          change H_TITLE with (35%N :: tl H_TITLE) at 1; reassociate.
      + rewrite strip_two_anchors by reflexivity.
        change H_TITLE with (35%N :: tl H_TITLE) at 2. reassociate.
    - transitivity (strip (kw ++ 35%N :: (tl H_TITLE ++ [LF] ++ g ++ [LF]
                                          ++ (H_COUNT ++ [48%N]) ++ [LF]
                                          ++ H_DETAILS ++ u ++ lit "](" ++ u)
                           ++ 41%N :: [LF])).
      + f_equal. subst kw. destruct (nonempty keyword); cbn [join app];
          change H_TITLE with (35%N :: tl H_TITLE) at 1;
          change (lit ")") with [41%N]; reassociate.
      + rewrite strip_two_anchors by reflexivity.
        change H_TITLE with (35%N :: tl H_TITLE) at 2.
        change (lit ")") with [41%N]. reassociate. }
  destruct site_url as [u |]; [destruct (nonempty u) |].
  - apply Hsite. right. now exists u.
  - apply Hsite. now left.
  - apply Hsite. now left.
Qed.

End HeaderOnly.

(** The two assertions on [shown] and on the size made by the repository's
    tests hold of the embedding. *)
Example test_contains_keyword_and_truncation :
  returned_shown
    (@build_digest_markdown Host.runtime Samples.five_items Samples.KEYWORD
       3 10000 None)
  = Some 3.
Proof. vm_compute. reflexivity. Qed.

Example test_shrinks_to_byte_limit :
  match @build_digest_markdown Host.runtime Samples.two_long_items
          Samples.KEYWORD 2 600 None with
  | Some (inr (content, shown)) =>
    match utf8_len content with
    | Some size => (size <=? 600) && (1 <=? shown)
    | None => false
    end
  | _ => false
  end = true.
Proof. vm_compute. reflexivity. Qed.

(** ** Properties of the digest builder *)

(** C1, as amended.  [build_digest_markdown] raises [UnicodeEncodeError]
    when the text of its first pass holds a lone surrogate, and only then.
    Otherwise it returns a text and a count.  The text is the one rendered
    at that count and at the title limit the loop stopped at, and it has an
    encoding.  Either its UTF-8 length is within [byte_limit], or the budget
    is spent: the count is at its floor (1 when something was selected, else
    0) and the title limit, at 18, is no longer above 20, and the text is
    returned over budget.  When something was selected the count is at
    least 1. *)
Theorem build_digest_markdown_fits_or_best_effort {R : Runtime}
    (snapshot : dict) (keyword : pystr) (top_n byte_limit : Z)
    (site_url : option pystr) :
  let items := pick_ai_items snapshot in
  let total := Z.of_nat (List.length items) in
  let header := _header_lines snapshot keyword total site_url in
  let floor := if total =? 0 then 0 else 1 in
  let first := render header items total (initial_shown top_n total) 46 in
  (encodable first = false
   /\ build_digest_markdown snapshot keyword top_n byte_limit site_url
      = Some (inl UnicodeEncodeError))
  \/ (encodable first = true
      /\ exists content shown title_limit size,
           build_digest_markdown snapshot keyword top_n byte_limit site_url
           = Some (inr (content, shown))
           /\ content = render header items total shown title_limit
           /\ utf8_len content = Some size
           /\ (size <= byte_limit
               \/ (byte_limit < size /\ shown = floor
                   /\ title_limit <= 20 /\ title_limit = 18))
           /\ floor <= shown <= total
           /\ (1 <= total -> 1 <= shown)).
Proof.
  cbv zeta.
  destruct (build_digest_markdown_outcome snapshot keyword top_n byte_limit site_url)
    as [Hraise Hret].
  unfold first_pass_text in Hraise, Hret. cbv zeta in Hraise, Hret.
  match goal with
  | |- (encodable ?f = false /\ _) \/ _ => destruct (encodable f) eqn:Henc
  end.
  - right. split; [reflexivity |].
    destruct (Hret eq_refl) as (c & s & Hb).
    destruct (build_digest_markdown_returned _ _ _ _ _ _ _ Hb)
      as (t & size & Hc & Hs & _ & _ & Hlen & Hend).
    exists c, s, t, size. split; [exact Hb |]. split; [exact Hc |].
    split; [exact Hlen |].
    split; [| split; [exact Hs |]].
    + destruct Hend as [Hfit | (Hover & Hfloor & Ht)]; [now left | right]. lia.
    + intros Htotal.
      destruct (Z.eqb_spec (Z.of_nat (List.length (pick_ai_items snapshot))) 0);
        lia.
  - left. split; [reflexivity | now apply Hraise].
Qed.

(** The shrinking test of the repository: a result, with [shown >= 1]. *)
Lemma build_digest_markdown_fits_or_best_effort_witness :
  exists content shown,
    @build_digest_markdown Host.runtime Samples.two_long_items Samples.KEYWORD
      2 600 None = Some (inr (content, shown))
    /\ 1 <= shown.
Proof.
  destruct (@build_digest_markdown_fits_or_best_effort Host.runtime
              Samples.two_long_items Samples.KEYWORD 2 600 None)
    as [[Henc _] | (_ & c & s & t & size & Hb & _ & _ & _ & _ & Hpos)].
  - vm_compute in Henc. discriminate.
  - exists c, s. split; [exact Hb |]. apply Hpos. vm_compute. discriminate.
Defined.

(** C1 as stated fails: for a snapshot whose one title is a lone surrogate,
    as [json.loads] reads it from its escape, no pair is returned; the call
    raises at its first [encode]. *)
Lemma build_digest_markdown_surrogate_counterexample :
  @build_digest_markdown Host.runtime Samples.surrogate_title Samples.KEYWORD
    12 3800 None
  = Some (inl UnicodeEncodeError)
  /\ forall content shown,
       @build_digest_markdown Host.runtime Samples.surrogate_title
         Samples.KEYWORD 12 3800 None
       <> Some (inr (content, shown)).
Proof.
  assert (E : @build_digest_markdown Host.runtime Samples.surrogate_title
                Samples.KEYWORD 12 3800 None = Some (inl UnicodeEncodeError))
    by (vm_compute; reflexivity).
  split; [exact E |]. intros content shown. rewrite E. discriminate.
Qed.

(** C2, as amended.  A pass of the loop that neither returns nor raises
    either takes one off [shown], which was above its floor, or takes 4 off
    [title_limit], which was above 20 with [shown] at its floor; either way
    the measure of the pair goes down.  So every call of
    [build_digest_markdown] ends: with a pair when the text of its first
    pass has an encoding, with [UnicodeEncodeError] when it has none; and
    allowing the loop more passes than the measure does not change how it
    ends. *)
Theorem size_fitting_loop_terminates {R : Runtime} :
  (forall header items total min_items byte_limit shown title_limit
          shown' title_limit',
      loop_body header items total min_items byte_limit shown title_limit
      = Continue shown' title_limit' ->
      ((min_items < shown /\ shown' = shown - 1 /\ title_limit' = title_limit)
       \/ (shown <= min_items /\ 20 < title_limit
           /\ shown' = shown /\ title_limit' = title_limit - 4))
      /\ (loop_measure min_items shown' title_limit'
          < loop_measure min_items shown title_limit)%nat)
  /\ (forall snapshot keyword top_n byte_limit site_url,
      exists r,
        build_digest_markdown snapshot keyword top_n byte_limit site_url
        = Some r
        /\ (encodable (first_pass_text snapshot keyword top_n site_url) = true ->
            exists content shown, r = inr (content, shown))
        /\ (encodable (first_pass_text snapshot keyword top_n site_url) = false ->
            r = inl UnicodeEncodeError)
        /\ forall fuel,
            let items := pick_ai_items snapshot in
            let total := Z.of_nat (List.length items) in
            let min_items := if total =? 0 then 0 else 1 in
            (loop_measure min_items (initial_shown top_n total) 46 < fuel)%nat ->
            while_true fuel (_header_lines snapshot keyword total site_url)
              items total min_items byte_limit (initial_shown top_n total) 46
            = Some r).
Proof.
  split.
  - intros header items total min_items byte_limit shown title_limit
           shown' title_limit' Hb.
    split.
    + now apply loop_body_continue in Hb as [_ Hb].
    + eapply loop_measure_decreases; eauto.
  - intros snapshot keyword top_n byte_limit site_url.
    destruct (build_digest_markdown_ends snapshot keyword top_n byte_limit site_url)
      as (r & Hb & _).
    destruct (build_digest_markdown_outcome snapshot keyword top_n byte_limit site_url)
      as [Hraise Hret].
    exists r. split; [exact Hb |].
    split.
    { intros Henc. destruct (Hret Henc) as (c & s & Hb').
      exists c, s. congruence. }
    split.
    { intros Henc. specialize (Hraise Henc). congruence. }
    intros fuel. cbv zeta. intros Hfuel.
    eapply while_true_more_fuel; [exact Hb | exact Hfuel].
Qed.

(** A pass that drops one item: three shown of five, nothing fits in 10
    bytes. *)
Lemma size_fitting_loop_terminates_witness :
  (loop_measure 1 2 46 < loop_measure 1 3 46)%nat.
Proof.
  apply (proj1 (@size_fitting_loop_terminates Host.runtime)
           [] (pick_ai_items Samples.five_items) 5 1 10 3 46 2 46).
  vm_compute. reflexivity.
Defined.

(** C2 as stated fails: with a keyword that is an undecodable byte of the
    command line the loop ends at its first pass by raising, so the call
    has no value. *)
Lemma size_fitting_loop_counterexample :
  @build_digest_markdown Host.runtime Samples.five_items Samples.ESCAPED_BYTE
    12 3800 None
  = Some (inl UnicodeEncodeError)
  /\ returned_shown
       (@build_digest_markdown Host.runtime Samples.five_items
          Samples.ESCAPED_BYTE 12 3800 None)
     = None.
Proof. split; vm_compute; reflexivity. Qed.




(** C7, as amended.  When the keyword is not empty, holds no line feed and
    does not start with whitespace, the call either raises
    [UnicodeEncodeError], which it does exactly when the text of its first
    pass holds a lone surrogate, or returns a text whose first line is
    exactly the keyword. *)
Theorem keyword_is_first_line {R : Runtime}
    (snapshot : dict) (keyword : pystr) (top_n byte_limit : Z)
    (site_url : option pystr) :
  keyword <> [] ->
  ~ In LF keyword ->
  (forall c r, keyword = c :: r -> is_space c = false) ->
  (encodable (first_pass_text snapshot keyword top_n site_url) = false
   /\ build_digest_markdown snapshot keyword top_n byte_limit site_url
      = Some (inl UnicodeEncodeError))
  \/ (encodable (first_pass_text snapshot keyword top_n site_url) = true
      /\ exists content shown,
           build_digest_markdown snapshot keyword top_n byte_limit site_url
           = Some (inr (content, shown))
           /\ first_line content = keyword).
Proof.
  intros Hne Hlf Hsp.
  destruct (build_digest_markdown_outcome snapshot keyword top_n byte_limit site_url)
    as [Hraise Hret].
  destruct (encodable (first_pass_text snapshot keyword top_n site_url));
    [right | left; split; [reflexivity | now apply Hraise]].
  split; [reflexivity |].
  destruct (Hret eq_refl) as (c & s & Hb).
  exists c, s. split; [exact Hb |].
  destruct (build_digest_markdown_returned _ _ _ _ _ _ _ Hb)
    as (t & size & Hc & _).
  rewrite Hc. unfold render. cbv zeta.
  destruct (header_lines_shape snapshot keyword
              (Z.of_nat (List.length (pick_ai_items snapshot))) site_url)
    as (rest & ->).
  destruct keyword as [| k0 kr] eqn:Ek; [congruence |].
  cbn [nonempty app]. rewrite <- Ek in *.
  now apply first_line_of_rendered.
Qed.

(** The default keyword heads the digest of the five-item snapshot. *)
Lemma keyword_is_first_line_witness :
  exists content shown,
    @build_digest_markdown Host.runtime Samples.five_items Samples.KEYWORD
      3 10000 None = Some (inr (content, shown))
    /\ first_line content = Samples.KEYWORD.
Proof.
  destruct (@keyword_is_first_line Host.runtime Samples.five_items
              Samples.KEYWORD 3 10000 None)
    as [[Henc _] | (_ & c & s & H)].
  - discriminate.
  - vm_compute. intuition discriminate.
  - intros c r E. injection E as <- _. reflexivity.
  - vm_compute in Henc. discriminate.
  - now exists c, s.
Defined.

(** C7 as stated fails: the text is stripped as a whole, so a keyword that
    starts with a space loses it, and a keyword of two lines gives only its
    first as the first line; and a keyword that is an undecodable byte of
    the command line gives no text at all, the call raises. *)
Lemma keyword_is_first_line_counterexample :
  (lit " radar" <> []
   /\ option_map first_line
        (returned_text
           (@build_digest_markdown Host.runtime [] (lit " radar") 12 3800 None))
      = Some (lit "radar"))
  /\ option_map first_line
       (returned_text
          (@build_digest_markdown Host.runtime [] (lit "AI" ++ LF :: lit "radar")
             12 3800 None))
     = Some (lit "AI")
  /\ (Samples.ESCAPED_BYTE <> []
      /\ @build_digest_markdown Host.runtime [] Samples.ESCAPED_BYTE
           12 3800 None
         = Some (inl UnicodeEncodeError)).
Proof. repeat split; vm_compute; try discriminate; reflexivity. Qed.

(** C8, as amended.  When nothing is selected the header is all there is to
    render, whatever the limits: the keyword line if any, the title, the
    generation time, a count line that reads 0, and the link line if a site
    URL is given; no item line and no remark follow.  The call returns that
    text with the count 0, unless the text holds a lone surrogate, in which
    case it raises [UnicodeEncodeError]. *)
Theorem empty_selection_header_only {R : Runtime}
    (snapshot : dict) (keyword : pystr) (top_n byte_limit : Z)
    (site_url : option pystr) :
  pick_ai_items snapshot = [] ->
  (encodable (header_text snapshot keyword 0 site_url) = true ->
   build_digest_markdown snapshot keyword top_n byte_limit site_url
   = Some (inr (header_text snapshot keyword 0 site_url, 0)))
  /\ (encodable (header_text snapshot keyword 0 site_url) = false ->
      build_digest_markdown snapshot keyword top_n byte_limit site_url
      = Some (inl UnicodeEncodeError))
  /\ str_of_int 0 = lit "0"
  /\ (forall shown title_limit,
      _item_lines (pick_ai_items snapshot) shown title_limit = []).
Proof.
  intros Hnone.
  destruct (build_digest_markdown_outcome snapshot keyword top_n byte_limit site_url)
    as [Hraise Hret].
  assert (Hfirst : first_pass_text snapshot keyword top_n site_url
                   = header_text snapshot keyword 0 site_url).
  { unfold first_pass_text. cbv zeta. rewrite Hnone.
    cbn [List.length Z.of_nat].
    replace (initial_shown top_n 0) with 0
      by (unfold initial_shown; cbv zeta;
          destruct (Z.gtb_spec (Z.min (Z.max top_n 0) 0) 0); lia).
    now rewrite render_nothing, strip_join_header_zero. }
  rewrite Hfirst in Hraise, Hret.
  split.
  { intros Henc. destruct (Hret Henc) as (c & s & Hb).
    destruct (build_digest_markdown_returned _ _ _ _ _ _ _ Hb)
      as (t & size & Hc & Hs & _).
    rewrite Hnone in Hc, Hs. cbn [List.length Z.of_nat Z.eqb] in Hc, Hs.
    assert (s = 0) as -> by lia.
    rewrite render_nothing, strip_join_header_zero in Hc. now subst c. }
  split; [exact Hraise |].
  split; [reflexivity |].
  intros shown title_limit. rewrite Hnone. unfold _item_lines, slice_to.
  destruct (shown <? 0); now rewrite firstn_nil.
Qed.

(** A snapshot without items, with a byte limit nothing meets. *)
Lemma empty_selection_header_only_witness :
  @build_digest_markdown Host.runtime
    [(lit "generated_at", VStr (lit "2026-02-23T02:00:00Z"))]
    Samples.KEYWORD 12 10 None
  = Some (inr (lit "AI新闻雷达" ++ LF :: lit "## AI 新闻日报（近24小时）"
               ++ LF :: lit "> 生成时间：02-23 10:00（北京时间）"
               ++ LF :: lit "> AI 相关条数：0", 0)).
Proof.
  apply (@empty_selection_header_only Host.runtime
           [(lit "generated_at", VStr (lit "2026-02-23T02:00:00Z"))]
           Samples.KEYWORD 12 10 None); reflexivity.
Defined.

(** C8 as stated fails: with nothing selected and a site URL that is a lone
    surrogate no header-only text is returned; the call raises. *)
Lemma empty_selection_counterexample :
  pick_ai_items [] = []
  /\ @build_digest_markdown Host.runtime [] Samples.KEYWORD 12 3800
       (Some Samples.HIGH_SURROGATE)
     = Some (inl UnicodeEncodeError).
Proof. split; vm_compute; reflexivity. Qed.

(** ** Properties of delivery *)

(** What one call does, step by step. *)
Lemma send_wecom_markdown_run {R : Runtime}
    (w : world) (webhook_url content : pystr) (timeout : Z) :
  send_wecom_markdown webhook_url content timeout w
  = let q := mk_request webhook_url (markdown_payload content) timeout in
    (mk_world (answer w) (sent w ++ [q]),
     match answer w (sent w) q with
     | inl e => inl e
     | inr resp =>
       if (400 <=? status_code resp) && (status_code resp <? 600)
       then inl (HTTPError (status_code resp))
       else
         match json_body resp with
         | None => inl JSONDecodeError
         | Some (VDict d) =>
           match py_int (get_default d (lit "errcode") (VInt (-1))) with
           | inl e => inl e
           | inr n =>
             if negb (n =? 0)
             then inl (RuntimeError
                         (lit "WeCom push failed: " ++ py_str (VDict d)))
             else inr (VDict d)
           end
         | Some _ => inl AttributeError
         end
     end).
Proof.
  unfold send_wecom_markdown, bind, requests_post. cbv zeta.
  destruct (answer w (sent w) _) as [e | resp]; [reflexivity |].
  unfold raise_for_status, resp_json, data_get, lift, raise, ret.
  destruct ((400 <=? status_code resp) && (status_code resp <? 600));
    [reflexivity |].
  destruct (json_body resp) as [[| | | | | | d] |]; try reflexivity.
  destruct (py_int (get_default d (lit "errcode") (VInt (-1)))) as [e | n];
    [reflexivity |].
  destruct (negb (n =? 0)); reflexivity.
Qed.

(** C9, as amended.  [send_wecom_markdown] makes one POST, whose JSON body
    is the [msgtype]/[markdown]/[content] record around the given content,
    and no other request.  A transport failure is passed on.  A status from
    400 to 599 raises.  Otherwise, for a response that is a record whose
    [errcode] (-1 when absent) converts under [int] to [n]: the call raises
    [RuntimeError] carrying the whole record when [n] is not 0 and returns
    the record when [n] is 0.  For an [errcode] that is an integer this is:
    failure if and only if the integer is not 0. *)
Theorem send_wecom_markdown_contract {R : Runtime}
    (w : world) (webhook_url content : pystr) (timeout : Z) :
  let q :=
    mk_request webhook_url
      (VDict [(lit "msgtype", VStr (lit "markdown"));
              (lit "markdown", VDict [(lit "content", VStr content)])])
      timeout in
  let out := send_wecom_markdown webhook_url content timeout w in
  let failed_with (data : value) :=
    snd out = inl (RuntimeError (lit "WeCom push failed: " ++ py_str data)) in
  sent (fst out) = sent w ++ [q]
  /\ (forall e, answer w (sent w) q = inl e -> snd out = inl e)
  /\ (forall resp, answer w (sent w) q = inr resp ->
      400 <= status_code resp < 600 ->
      snd out = inl (HTTPError (status_code resp)))
  /\ (forall resp d n, answer w (sent w) q = inr resp ->
      ~ (400 <= status_code resp < 600) ->
      json_body resp = Some (VDict d) ->
      py_int (get_default d (lit "errcode") (VInt (-1))) = inr n ->
      (n <> 0 -> failed_with (VDict d))
      /\ (n = 0 -> snd out = inr (VDict d)))
  /\ (forall resp d n, answer w (sent w) q = inr resp ->
      ~ (400 <= status_code resp < 600) ->
      json_body resp = Some (VDict d) ->
      get_default d (lit "errcode") (VInt (-1)) = VInt n ->
      (failed_with (VDict d) <-> n <> 0)
      /\ (snd out = inr (VDict d) <-> n = 0)).
Proof.
  cbv zeta. rewrite send_wecom_markdown_run. cbv zeta.
  unfold markdown_payload. cbn [fst snd].
  set (q := mk_request webhook_url _ timeout).
  assert (Hstatus : forall resp, ~ (400 <= status_code resp < 600) ->
            (400 <=? status_code resp) && (status_code resp <? 600) = false).
  { intros resp H. destruct (Z.leb_spec 400 (status_code resp));
      destruct (Z.ltb_spec (status_code resp) 600); simpl; try reflexivity; lia. }
  split; [reflexivity |].
  split.
  { intros e ->. reflexivity. }
  split.
  { intros resp -> Hs.
    destruct (Z.leb_spec 400 (status_code resp));
      destruct (Z.ltb_spec (status_code resp) 600); try lia. reflexivity. }
  split.
  { intros resp d n -> Hs Hj Hn. rewrite (Hstatus resp Hs), Hj, Hn.
    split; intros H.
    - apply Z.eqb_neq in H. now rewrite H.
    - subst n. reflexivity. }
  intros resp d n -> Hs Hj Hn. rewrite (Hstatus resp Hs), Hj, Hn.
  cbn [py_int].
  destruct (Z.eqb_spec n 0) as [-> | Hne]; cbn [negb]; split; split;
    intros H; try reflexivity; try congruence; try discriminate.
Qed.

(** A webhook that reports [errcode] 0 gets the record back; one that
    reports 93000 makes the call fail. *)
Lemma send_wecom_markdown_contract_witness :
  snd (@send_wecom_markdown Host.runtime (lit "https://hook") (lit "hi") 15
         (Samples.answers_ok [(lit "errcode", VInt 0); (lit "errmsg", VStr (lit "ok"))]))
  = inr (VDict [(lit "errcode", VInt 0); (lit "errmsg", VStr (lit "ok"))])
  /\ snd (@send_wecom_markdown Host.runtime (lit "https://hook") (lit "hi") 15
            (Samples.answers_ok [(lit "errcode", VInt 93000)]))
     = inl (RuntimeError (lit "WeCom push failed: {'errcode': 93000}")).
Proof.
  split.
  - destruct (@send_wecom_markdown_contract Host.runtime
                (Samples.answers_ok [(lit "errcode", VInt 0);
                             (lit "errmsg", VStr (lit "ok"))])
                (lit "https://hook") (lit "hi") 15) as (_ & _ & _ & H & _).
    apply (H (mk_response 200
                (Some (VDict [(lit "errcode", VInt 0);
                              (lit "errmsg", VStr (lit "ok"))])))
             [(lit "errcode", VInt 0); (lit "errmsg", VStr (lit "ok"))] 0);
      [reflexivity | simpl; lia | reflexivity | reflexivity | reflexivity].
  - destruct (@send_wecom_markdown_contract Host.runtime
                (Samples.answers_ok [(lit "errcode", VInt 93000)])
                (lit "https://hook") (lit "hi") 15) as (_ & _ & _ & H & _).
    apply (H (mk_response 200 (Some (VDict [(lit "errcode", VInt 93000)])))
             [(lit "errcode", VInt 93000)] 93000);
      [reflexivity | simpl; lia | reflexivity | reflexivity | discriminate].
Defined.

(** C9 as stated fails: an [errcode] of 0.5 is numeric and is not exactly 0,
    yet [int] cuts it to 0 and the call returns the record instead of
    failing. *)
Lemma send_wecom_markdown_counterexample :
  VFloat Samples.half <> VInt 0
  /\ snd (@send_wecom_markdown Host.runtime (lit "https://hook") (lit "hi") 15
            (Samples.answers_ok [(lit "errcode", VFloat Samples.half);
                         (lit "errmsg", VStr (lit "odd"))]))
     = inr (VDict [(lit "errcode", VFloat Samples.half);
                   (lit "errmsg", VStr (lit "odd"))]).
Proof. split; [discriminate | vm_compute; reflexivity]. Qed.

(** ** Further properties of the helpers *)

Section CleanText.

Lemma replace_LF_without_LF (r : pystr) :
  ~ In LF r -> replace_char LF [SPACE] r = r.
Proof.
  unfold replace_char. induction r as [| c r IH]; intros H; [reflexivity |].
  simpl. destruct (N.eqb_spec c LF) as [-> | _].
  - exfalso. apply H. now left.
  - simpl. f_equal. apply IH. intros Hin. apply H. now right.
Qed.

Lemma strip_stripped (r : pystr) :
  (forall c t, r = c :: t -> is_space c = false) ->
  (forall t c, r = t ++ [c] -> is_space c = false) ->
  strip r = r.
Proof.
  intros Hhead Hlast. unfold strip. rewrite lstrip_unspaced by exact Hhead.
  destruct r as [| c t]; [reflexivity |].
  destruct (exists_last (l := c :: t) ltac:(discriminate)) as (t' & d & E).
  rewrite E. rewrite (rstrip_app_anchor t' [] d) by (eapply Hlast; eauto).
  reflexivity.
Qed.

(** The text [shorten] works on: one line, with no whitespace at its ends. *)
Lemma clean_text_facts (text : pystr) :
  let s := strip (replace_char LF [SPACE] text) in
  ~ In LF s
  /\ (forall c t, s = c :: t -> is_space c = false)
  /\ (forall t c, s = t ++ [c] -> is_space c = false).
Proof.
  cbv zeta.
  destruct (strip_spec (replace_char LF [SPACE] text))
    as (a & b & E & _ & _ & Hhead & Hlast).
  split; [| split; assumption].
  intros Hin. apply (replace_LF_no_LF text). rewrite E.
  apply in_or_app. right. apply in_or_app. now left.
Qed.

Lemma In_firstn {A} (n : nat) (l : list A) (x : A) : In x (firstn n l) -> In x l.
Proof.
  revert l. induction n as [| n IH]; intros [| y l]; simpl; try tauto.
  intros [-> | H]; [now left | right; auto].
Qed.

(** [shorten] gives one of three things. *)
Lemma shorten_cases (text : pystr) (limit : Z) :
  let s := strip (replace_char LF [SPACE] text) in
  (len s <= limit /\ shorten text limit = s)
  \/ (limit < len s /\ limit <= 1 /\ shorten text limit = ELLIPSIS)
  \/ (limit < len s /\ 2 <= limit
      /\ shorten text limit = firstn (Z.to_nat (limit - 1)) s ++ ELLIPSIS).
Proof.
  cbv zeta.
  destruct (Z.le_gt_cases (len (strip (replace_char LF [SPACE] text))) limit)
    as [Hfit | Hlong].
  - left. split; [exact Hfit | now apply shorten_fits].
  - right. destruct (Z.le_gt_cases limit 1) as [H1 | H2].
    + left. repeat split; try lia. apply shorten_ellipsis; lia.
    + right. repeat split; try lia. apply shorten_cut; lia.
Qed.

(** What [shorten] returns is again one line with clean ends. *)
Lemma shorten_clean (text : pystr) (limit : Z) :
  ~ In LF (shorten text limit)
  /\ (forall c t, shorten text limit = c :: t -> is_space c = false)
  /\ (forall t c, shorten text limit = t ++ [c] -> is_space c = false).
Proof.
  destruct (clean_text_facts text) as (Hlf & Hhead & Hlast).
  destruct (shorten_cases text limit)
    as [(Hfit & ->) | [(Hlong & H1 & ->) | (Hlong & H2 & ->)]].
  - repeat split; assumption.
  - repeat split.
    + vm_compute. intuition discriminate.
    + intros c t E. injection E as <- _. reflexivity.
    + intros [| x t] c E; [injection E as <-; reflexivity |].
      destruct t; discriminate.
  - set (s := strip (replace_char LF [SPACE] text)) in *.
    repeat split.
    + intros Hin. apply in_app_or in Hin as [Hin | Hin].
      * apply Hlf. eapply In_firstn; eauto.
      * revert Hin. vm_compute. intuition discriminate.
    + intros c t E. destruct s as [| c0 s0] eqn:Es.
      { unfold len in Hlong. simpl in Hlong. lia. }
      destruct (Z.to_nat (limit - 1)) as [| n] eqn:En; [lia |].
      simpl in E. injection E as <- _. eapply Hhead; eauto.
    + intros t c E. change ELLIPSIS with ([] ++ [8230%N]) in E.
      rewrite app_assoc in E. apply app_inj_tail in E as [_ <-]. reflexivity.
Qed.

End CleanText.

(** X1.  Whatever the text and the limit, what [shorten] returns holds no
    line feed and neither starts nor ends with a whitespace character. *)
Theorem shorten_is_one_clean_line (text : pystr) (limit : Z) :
  ~ In LF (shorten text limit)
  /\ (forall c t, shorten text limit = c :: t -> is_space c = false)
  /\ (forall t c, shorten text limit = t ++ [c] -> is_space c = false).
Proof. exact (shorten_clean text limit). Qed.

(** X2.  Shortening twice with the same limit is shortening once. *)
Theorem shorten_idempotent (text : pystr) (limit : Z) :
  shorten (shorten text limit) limit = shorten text limit.
Proof.
  destruct (shorten_clean text limit) as (Hlf & Hhead & Hlast).
  assert (Hclean : strip (replace_char LF [SPACE] (shorten text limit))
                   = shorten text limit).
  { rewrite replace_LF_without_LF by exact Hlf. now apply strip_stripped. }
  destruct (shorten_cases text limit)
    as [(Hfit & E) | [(Hlong & H1 & E) | (Hlong & H2 & E)]].
  - rewrite shorten_fits; rewrite Hclean; [reflexivity |]. now rewrite E.
  - destruct (Z.eq_dec limit 1) as [-> | Hne].
    + rewrite shorten_fits; rewrite Hclean; [reflexivity |].
      rewrite E. vm_compute. discriminate.
    + rewrite shorten_ellipsis; rewrite ?Hclean; [now rewrite E | | lia].
      rewrite E. unfold ELLIPSIS, len. simpl. lia.
  - rewrite shorten_fits; rewrite Hclean; [reflexivity |].
    rewrite E, len_app, len_firstn_le by lia.
    unfold ELLIPSIS, len. simpl. lia.
Qed.

Section Timestamps.
Context {R : Runtime}.

Lemma replace_Z_no_Z (s : pystr) : ~ In 90%N (replace_Z s).
Proof.
  unfold replace_Z, replace_char. intros H.
  apply in_flat_map in H as (c & _ & Hc).
  destruct (c =? 90)%N eqn:E.
  - revert Hc. vm_compute. intuition discriminate.
  - destruct Hc as [Hc | []]. subst c. discriminate.
Qed.

Lemma replace_Z_without_Z (s : pystr) : ~ In 90%N s -> replace_Z s = s.
Proof.
  unfold replace_Z, replace_char. induction s as [| c s IH]; intros H;
    [reflexivity |].
  simpl. destruct (N.eqb_spec c 90) as [-> | _].
  - exfalso. apply H. now left.
  - simpl. f_equal. apply IH. intros Hin. apply H. now right.
Qed.

Lemma strftime_md_hm_nonempty (dt : datetime) : strftime_md_hm dt <> [].
Proof.
  unfold strftime_md_hm. intros H.
  apply app_eq_nil in H as [_ H]. discriminate.
Qed.

End Timestamps.

(** X3.  [parse_iso_to_bj] never returns the empty string: the placeholder,
    the input itself when it is not empty, or a rendered time. *)
Theorem parse_iso_to_bj_nonempty {R : Runtime} (iso_str : option pystr) :
  parse_iso_to_bj iso_str <> [].
Proof.
  destruct iso_str as [s |]; [| discriminate].
  unfold parse_iso_to_bj. destruct s as [| c s]; [discriminate |].
  cbn [nonempty negb].
  destruct (fromisoformat (replace_Z (c :: s))) as [dt |]; [| discriminate].
  destruct (astimezone_shanghai dt) as [bj |]; [| discriminate].
  apply strftime_md_hm_nonempty.
Qed.

(** X4.  What the parser is handed is the input with every [Z] replaced:
    the result is decided by what the parser and the zone conversion make
    of that string.  The replacement puts [+00:00] wherever a [Z] stands,
    at the end or not, and leaves every other character alone, so the
    parser is never given a [Z], and an input without [Z] reaches it
    unchanged. *)
Theorem parse_iso_to_bj_feeds_parser {R : Runtime} (s : pystr) :
  (s <> [] ->
   parse_iso_to_bj (Some s)
   = match fromisoformat (replace_Z s) with
     | Some dt =>
       match astimezone_shanghai dt with
       | Some bj => strftime_md_hm bj
       | None => s
       end
     | None => s
     end)
  /\ (forall a b, s = a ++ lit "Z" ++ b ->
      replace_Z s = replace_Z a ++ lit "+00:00" ++ replace_Z b)
  /\ (~ In 90%N s -> replace_Z s = s)
  /\ ~ In 90%N (replace_Z s)
  /\ len (replace_Z s)
     = len s + 5 * Z.of_nat (List.length (List.filter (N.eqb 90) s)).
Proof.
  split.
  { intros Hne. unfold parse_iso_to_bj.
    destruct s; [congruence | reflexivity]. }
  split.
  { intros a b ->. now rewrite !replace_Z_app. }
  split; [apply replace_Z_without_Z |].
  split; [apply replace_Z_no_Z |].
  unfold replace_Z, replace_char, len.
  induction s as [| c s IH]; [reflexivity |].
  cbn [flat_map List.filter]. rewrite length_app, Nat2Z.inj_add, IH.
  rewrite (N.eqb_sym 90 c).
  destruct (c =? 90)%N; cbn [List.length lit]; [| simpl List.length; lia].
  change (List.length (lit "+00:00")) with 6%nat. lia.
Qed.

(** The test's timestamp: the parser of the examples is handed the offset
    form. *)
Lemma parse_iso_to_bj_feeds_parser_witness :
  replace_Z (lit "2026-02-23T01:00:00Z") = lit "2026-02-23T01:00:00+00:00"
  /\ @parse_iso_to_bj Host.runtime (Some (lit "2026-02-23T01:00:00Z"))
     = lit "02-23 09:00".
Proof.
  split.
  - apply (proj1 (proj2 (@parse_iso_to_bj_feeds_parser Host.runtime
                           (lit "2026-02-23T01:00:00Z")))
             (lit "2026-02-23T01:00:00") []).
    reflexivity.
  - rewrite (proj1 (@parse_iso_to_bj_feeds_parser Host.runtime
                      (lit "2026-02-23T01:00:00Z")));
      [reflexivity | discriminate].
Defined.

(** ** Further properties of the item list *)

Section ItemLines.
Context {R : Runtime}.

Lemma item_block_lines (idx : Z) (item : dict) (title_limit : Z) :
  exists entry meta,
    item_block idx item title_limit
    = [str_of_int idx ++ lit ". " ++ entry; lit "> " ++ meta].
Proof.
  unfold item_block. cbv zeta.
  match goal with
  | |- context [if nonempty ?u then _ else _] => destruct (nonempty u)
  end; eexists; eexists; reflexivity.
Qed.

Lemma enumerate_blocks_length (items : list dict) :
  forall start title_limit,
    List.length (enumerate_blocks start items title_limit)
    = (2 * List.length items)%nat.
Proof.
  induction items as [| item rest IH]; intros start title_limit;
    [reflexivity |].
  cbn [enumerate_blocks]. rewrite length_app, IH.
  destruct (item_block_lines start item title_limit) as (e & m & ->).
  simpl. lia.
Qed.

Lemma enumerate_blocks_nth (items : list dict) :
  forall start title_limit k item,
    nth_error items k = Some item ->
    exists entry meta,
      nth_error (enumerate_blocks start items title_limit) (2 * k)
      = Some (str_of_int (start + Z.of_nat k) ++ lit ". " ++ entry)
      /\ nth_error (enumerate_blocks start items title_limit) (2 * k + 1)
         = Some (lit "> " ++ meta).
Proof.
  induction items as [| first rest IH]; intros start title_limit k item Hk.
  - destruct k; discriminate.
  - cbn [enumerate_blocks].
    destruct (item_block_lines start first title_limit) as (e & m & ->).
    destruct k as [| k].
    + exists e, m. rewrite Z.add_0_r. split; reflexivity.
    + simpl in Hk.
      destruct (IH (start + 1) title_limit k item Hk) as (e' & m' & H0 & H1).
      exists e', m'.
      replace (2 * S k)%nat with (S (S (2 * k))) by lia.
      replace (start + Z.of_nat (S k)) with (start + 1 + Z.of_nat k) by lia.
      split; [exact H0 | exact H1].
Qed.

End ItemLines.

(** X5.  [_item_lines] gives two lines for each item it is asked to show and
    none for the others: with [0 <= top_n] that is twice the smaller of
    [top_n] and the number of items; a negative [top_n], read as a Python
    slice bound, leaves that many items off the end. *)
Theorem item_lines_count {R : Runtime}
    (items : list dict) (top_n title_limit : Z) :
  (0 <= top_n ->
   len_lines (_item_lines items top_n title_limit)
   = 2 * Z.min top_n (Z.of_nat (List.length items)))
  /\ (top_n < 0 ->
      len_lines (_item_lines items top_n title_limit)
      = 2 * Z.max 0 (Z.of_nat (List.length items) + top_n)).
Proof.
  unfold len_lines, _item_lines, slice_to. split; intros H.
  - destruct (Z.ltb_spec top_n 0); [lia |].
    rewrite enumerate_blocks_length, length_firstn. lia.
  - destruct (Z.ltb_spec top_n 0); [| lia].
    rewrite enumerate_blocks_length, length_firstn. lia.
Qed.

(** Three items asked of two, and one left off the end of two. *)
Lemma item_lines_count_witness :
  len_lines (@_item_lines Host.runtime
               (pick_ai_items Samples.two_long_items) 3 46) = 4
  /\ len_lines (@_item_lines Host.runtime
                  (pick_ai_items Samples.two_long_items) (-1) 46) = 2.
Proof.
  split.
  - rewrite (proj1 (@item_lines_count Host.runtime
                      (pick_ai_items Samples.two_long_items) 3 46));
      [reflexivity | discriminate].
  - rewrite (proj2 (@item_lines_count Host.runtime
                      (pick_ai_items Samples.two_long_items) (-1) 46));
      reflexivity.
Defined.

(** X6.  The entries are numbered from 1 in the order of the items: the
    item at position [k] (from 0) among those shown gives line [2k], which
    starts with [k + 1] and a dot, and line [2k + 1], a quoted line. *)
Theorem item_lines_numbering {R : Runtime}
    (items : list dict) (top_n title_limit : Z) (k : nat) (item : dict) :
  nth_error (slice_to items top_n) k = Some item ->
  exists entry meta,
    nth_error (_item_lines items top_n title_limit) (2 * k)
    = Some (str_of_int (Z.of_nat k + 1) ++ lit ". " ++ entry)
    /\ nth_error (_item_lines items top_n title_limit) (2 * k + 1)
       = Some (lit "> " ++ meta).
Proof.
  intros Hk. unfold _item_lines.
  destruct (enumerate_blocks_nth (slice_to items top_n) 1 title_limit k item Hk)
    as (e & m & H0 & H1).
  exists e, m. rewrite Z.add_comm. split; assumption.
Qed.

(** The second of the five short items is entry 2. *)
Lemma item_lines_numbering_witness :
  exists entry meta,
    nth_error (@_item_lines Host.runtime
                 (pick_ai_items Samples.five_items) 3 46) 2
    = Some (lit "2. " ++ entry)
    /\ nth_error (@_item_lines Host.runtime
                    (pick_ai_items Samples.five_items) 3 46) 3
       = Some (lit "> " ++ meta).
Proof.
  apply (@item_lines_numbering Host.runtime
           (pick_ai_items Samples.five_items) 3 46 1
           [(lit "title", VStr (lit "标题" ++ str_of_int 1));
            (lit "url", VStr (lit "https://example.com/" ++ str_of_int 1));
            (lit "site_name", VStr (lit "NewsNow"));
            (lit "source", VStr (lit "demo"));
            (lit "published_at", VStr (lit "2026-02-23T01:00:00Z"))]).
  reflexivity.
Defined.

(** X7.  An item none of whose fields is usable (each absent, [None],
    empty, zero or [False]) is shown with the placeholders, whatever the
    runtime: [Untitled] as a plain entry, [-] for site and source and
    [--:--] for the time, as long as the title limit leaves room for the
    eight letters. *)
Theorem item_lines_placeholders {R : Runtime} (item : dict) (title_limit : Z) :
  8 <= title_limit ->
  truthy (get item (lit "title_bilingual")) = false ->
  truthy (get item (lit "title")) = false ->
  truthy (get item (lit "url")) = false ->
  truthy (get item (lit "site_name")) = false ->
  truthy (get item (lit "source")) = false ->
  truthy (get item (lit "published_at")) = false ->
  _item_lines [item] 1 title_limit
  = [lit "1. Untitled"; lit "> -/- · --:--"].
Proof.
  intros Hlimit Htb Ht Hu Hs Hso Hp.
  unfold _item_lines. change (slice_to [item] 1) with [item].
  cbn [enumerate_blocks app].
  unfold item_block, py_or. rewrite Htb, Ht, Hu, Hs, Hso, Hp.
  cbn [truthy nonempty py_str].
  rewrite shorten_fits by exact Hlimit.
  reflexivity.
Qed.

(** An item with an empty title and a null URL. *)
Lemma item_lines_placeholders_witness :
  @_item_lines Host.runtime
    [[(lit "title", VStr []); (lit "url", VNone)]] 1 46
  = [lit "1. Untitled"; lit "> -/- · --:--"].
Proof.
  apply (@item_lines_placeholders Host.runtime); reflexivity || discriminate.
Defined.

(** ** Further properties of the digest builder *)

Section DigestShape.
Context {R : Runtime}.

Lemma header_lines_start (snapshot : dict) (keyword : pystr) (total : Z)
    (site_url : option pystr) :
  exists g rest,
    _header_lines snapshot keyword total site_url
    = (if nonempty keyword then [keyword] else [])
      ++ H_TITLE :: (62%N :: g) :: rest.
Proof. eexists. eexists. reflexivity. Qed.

(** The joined lines: keyword part, title, and a next line that starts with
    the quote mark. *)
Lemma join_header_body (snapshot : dict) (keyword : pystr) (total : Z)
    (site_url : option pystr) (body : list pystr) :
  exists more,
    join [LF] (_header_lines snapshot keyword total site_url ++ body)
    = keyword_part keyword ++ H_TITLE ++ LF :: 62%N :: more.
Proof.
  destruct (header_lines_start snapshot keyword total site_url)
    as (g & rest & ->).
  unfold keyword_part.
  exists (g ++ match rest ++ body with
               | [] => []
               | _ => [LF] ++ join [LF] (rest ++ body)
               end).
  destruct (nonempty keyword); cbn [app];
    repeat (rewrite join_cons; cbn [app]);
    repeat first [rewrite <- app_assoc | progress cbn [app]]; reflexivity.
Qed.

(** A rendered text: the keyword part less its leading whitespace, the
    title, and more lines. *)
Lemma rendered_shape (snapshot : dict) (keyword : pystr) (total : Z)
    (site_url : option pystr) (body : list pystr) :
  exists tail,
    strip (join [LF] (_header_lines snapshot keyword total site_url ++ body))
    = lstrip (keyword_part keyword) ++ H_TITLE ++ LF :: tail.
Proof.
  destruct (join_header_body snapshot keyword total site_url body)
    as (more & ->).
  exists (62%N :: rstrip more).
  change H_TITLE with (35%N :: tl H_TITLE).
  cbn [app]. rewrite strip_anchor by reflexivity.
  replace (tl H_TITLE ++ LF :: 62%N :: more)
    with ((tl H_TITLE ++ [LF]) ++ 62%N :: more)
    by (now rewrite <- app_assoc).
  rewrite rstrip_app_anchor by reflexivity.
  now rewrite <- app_assoc.
Qed.

Lemma render_shape (snapshot : dict) (keyword : pystr) (site_url : option pystr)
    (items : list dict) (total shown title_limit : Z) :
  exists tail,
    render (_header_lines snapshot keyword total site_url) items total
           shown title_limit
    = lstrip (keyword_part keyword) ++ H_TITLE ++ LF :: tail.
Proof. unfold render. cbv zeta. apply rendered_shape. Qed.

Lemma render_clean_ends (header : list pystr) (items : list dict)
    (total shown title_limit : Z) :
  (forall c t, render header items total shown title_limit = c :: t ->
               is_space c = false)
  /\ (forall t c, render header items total shown title_limit = t ++ [c] ->
                  is_space c = false).
Proof.
  unfold render. cbv zeta.
  match goal with
  | |- context [strip ?x] =>
    destruct (strip_spec x) as (_ & _ & _ & _ & _ & Hh & Hl)
  end.
  split; assumption.
Qed.

End DigestShape.

(** X8.  A text that [build_digest_markdown] returns is never blank: it
    holds the title line, so its encoding has at least the 35 bytes of the
    title, and it neither starts nor ends with a whitespace character. *)
Theorem digest_has_title_and_clean_ends {R : Runtime}
    (snapshot : dict) (keyword : pystr) (top_n byte_limit : Z)
    (site_url : option pystr) (content : pystr) (shown : Z) :
  build_digest_markdown snapshot keyword top_n byte_limit site_url
  = Some (inr (content, shown)) ->
  (exists pre post, content = pre ++ H_TITLE ++ LF :: post)
  /\ (exists size, utf8_len content = Some size /\ 35 <= size)
  /\ (forall c t, content = c :: t -> is_space c = false)
  /\ (forall t c, content = t ++ [c] -> is_space c = false).
Proof.
  intros Hb.
  destruct (build_digest_markdown_returned _ _ _ _ _ _ _ Hb)
    as (t & size & Hc & _ & _ & _ & Hlen & _).
  destruct (render_shape snapshot keyword site_url (pick_ai_items snapshot)
              (Z.of_nat (List.length (pick_ai_items snapshot))) shown t)
    as (tail & Hshape).
  rewrite <- Hc in Hshape.
  split; [now exists (lstrip (keyword_part keyword)), tail |].
  split.
  { exists size. split; [exact Hlen |].
    apply utf8_len_some in Hlen as [_ ->].
    rewrite Hshape, !utf8_size_app.
    pose proof (utf8_size_nonneg (lstrip (keyword_part keyword))).
    pose proof (utf8_size_nonneg (LF :: tail)).
    change (utf8_size H_TITLE) with 35. lia. }
  rewrite Hc. apply render_clean_ends.
Qed.

(** The digest of the five short items. *)
Lemma digest_has_title_and_clean_ends_witness :
  exists content size,
    @build_digest_markdown Host.runtime Samples.five_items Samples.KEYWORD
      3 10000 None = Some (inr (content, 3))
    /\ utf8_len content = Some size /\ 35 <= size.
Proof.
  assert (E : exists content,
            @build_digest_markdown Host.runtime Samples.five_items
              Samples.KEYWORD 3 10000 None = Some (inr (content, 3)))
    by (vm_compute; eexists; reflexivity).
  destruct E as (content & E).
  destruct (@digest_has_title_and_clean_ends Host.runtime _ _ _ _ _ _ _ E)
    as (_ & (size & Hlen & Hsize) & _).
  exists content, size. split; [exact E |]. split; [exact Hlen | exact Hsize].
Defined.

(** X9.  A byte limit under 35 is never met: a call that returns then has
    the count at its floor (1 when something was selected, else 0) and a
    text whose encoding is longer than the limit; and it does return unless
    the text of its first pass holds a lone surrogate. *)
Theorem digest_limit_below_title {R : Runtime}
    (snapshot : dict) (keyword : pystr) (top_n byte_limit : Z)
    (site_url : option pystr) :
  byte_limit < 35 ->
  (encodable (first_pass_text snapshot keyword top_n site_url) = false
   /\ build_digest_markdown snapshot keyword top_n byte_limit site_url
      = Some (inl UnicodeEncodeError))
  \/ (encodable (first_pass_text snapshot keyword top_n site_url) = true
      /\ exists content size,
           build_digest_markdown snapshot keyword top_n byte_limit site_url
           = Some (inr (content,
                        if Z.of_nat (List.length (pick_ai_items snapshot)) =? 0
                        then 0 else 1))
           /\ utf8_len content = Some size
           /\ byte_limit < size).
Proof.
  intros Hlimit.
  destruct (build_digest_markdown_outcome snapshot keyword top_n byte_limit site_url)
    as [Hraise Hret].
  destruct (encodable (first_pass_text snapshot keyword top_n site_url));
    [right | left; split; [reflexivity | now apply Hraise]].
  split; [reflexivity |].
  destruct (Hret eq_refl) as (c & s & Hb).
  destruct (build_digest_markdown_returned _ _ _ _ _ _ _ Hb)
    as (t & size & Hc & _ & _ & _ & Hlen & Hend).
  destruct (render_shape snapshot keyword site_url (pick_ai_items snapshot)
              (Z.of_nat (List.length (pick_ai_items snapshot))) s t)
    as (tail & Hshape).
  rewrite <- Hc in Hshape.
  assert (Hsize : 35 <= size).
  { apply utf8_len_some in Hlen as [_ ->].
    rewrite Hshape, !utf8_size_app.
    pose proof (utf8_size_nonneg (lstrip (keyword_part keyword))).
    pose proof (utf8_size_nonneg (LF :: tail)).
    change (utf8_size H_TITLE) with 35. lia. }
  destruct Hend as [Hfit | (Hover & Hs & _)]; [lia |].
  exists c, size. rewrite <- Hs. split; [exact Hb |]. split; [exact Hlen | lia].
Qed.

(** The five short items under a limit of 20 bytes: one is shown. *)
Lemma digest_limit_below_title_witness :
  returned_shown
    (@build_digest_markdown Host.runtime Samples.five_items Samples.KEYWORD
       3 20 None)
  = Some 1.
Proof.
  destruct (@digest_limit_below_title Host.runtime Samples.five_items
              Samples.KEYWORD 3 20 None)
    as [[Henc _] | (_ & c & size & H & _)]; [reflexivity | |].
  - vm_compute in Henc. discriminate.
  - rewrite H. reflexivity.
Defined.

(** X10.  Without a keyword the first line of a text that
    [build_digest_markdown] returns is the title. *)
Theorem digest_first_line_without_keyword {R : Runtime}
    (snapshot : dict) (top_n byte_limit : Z) (site_url : option pystr)
    (content : pystr) (shown : Z) :
  build_digest_markdown snapshot [] top_n byte_limit site_url
  = Some (inr (content, shown)) ->
  first_line content = H_TITLE.
Proof.
  intros Hb.
  destruct (build_digest_markdown_returned _ _ _ _ _ _ _ Hb)
    as (t & size & Hc & _).
  destruct (render_shape snapshot [] site_url (pick_ai_items snapshot)
              (Z.of_nat (List.length (pick_ai_items snapshot))) shown t)
    as (tail & Hshape).
  rewrite Hc, Hshape. cbn [keyword_part nonempty lstrip app].
  apply first_line_app_LF. vm_compute. intuition discriminate.
Qed.

(** The five short items without a keyword. *)
Lemma digest_first_line_without_keyword_witness :
  option_map first_line
    (returned_text
       (@build_digest_markdown Host.runtime Samples.five_items [] 3 10000 None))
  = Some (lit "## AI 新闻日报（近24小时）").
Proof.
  assert (E : exists content,
            @build_digest_markdown Host.runtime Samples.five_items [] 3 10000
              None = Some (inr (content, 3)))
    by (vm_compute; eexists; reflexivity).
  destruct E as (content & E).
  rewrite E. cbn [returned_text option_map].
  now rewrite (@digest_first_line_without_keyword Host.runtime _ _ _ _ _ _ E).
Defined.

Section LoopOrder.
Context {R : Runtime}.
Variables (header : list pystr) (items : list dict) (total min_items : Z).

(** The loop never returns a larger count than it was started with. *)
Lemma while_true_shown_le (byte_limit : Z) (fuel : nat) :
  forall shown title_limit content shown',
    while_true fuel header items total min_items byte_limit shown title_limit
    = Some (inr (content, shown')) ->
    shown' <= shown.
Proof.
  induction fuel as [| fuel IH]; intros shown title_limit content shown';
    [discriminate |].
  simpl.
  destruct (loop_body header items total min_items byte_limit shown title_limit)
    as [c s | s t | e] eqn:Hb.
  - apply loop_body_return in Hb as (-> & _). intros E. injection E as _ <-. lia.
  - apply loop_body_continue in Hb as [_ Hstep]. intros E.
    apply IH in E. lia.
  - discriminate.
Qed.

(** A larger byte limit stops the loop no later: the count is no smaller,
    and a result within the smaller limit stays within the larger. *)
Lemma while_true_monotone (low high : Z) (fuel : nat) :
  low <= high ->
  forall shown title_limit c1 s1 c2 s2,
    while_true fuel header items total min_items low shown title_limit
    = Some (inr (c1, s1)) ->
    while_true fuel header items total min_items high shown title_limit
    = Some (inr (c2, s2)) ->
    s1 <= s2
    /\ (forall n1 n2, utf8_len c1 = Some n1 -> utf8_len c2 = Some n2 ->
        n1 <= low -> n2 <= high).
Proof.
  intros Hle. induction fuel as [| fuel IH];
    intros shown title_limit c1 s1 c2 s2; [discriminate |].
  simpl. unfold loop_body. cbv zeta.
  set (content := render header items total shown title_limit).
  destruct (utf8_len content) as [size |] eqn:Hlen; [| discriminate].
  assert (Hsame : forall n1 n2, utf8_len content = Some n1 ->
            utf8_len content = Some n2 -> n1 <= low -> n2 <= high)
    by (intros n1 n2 E1 E2; rewrite E1 in E2; injection E2 as <-; lia).
  destruct (Z.leb_spec size low) as [Hlow | Hlow].
  - destruct (Z.leb_spec size high) as [_ | Hhigh]; [| lia].
    intros E1 E2. injection E1 as <- <-. injection E2 as <- <-.
    split; [lia | exact Hsame].
  - destruct (Z.leb_spec size high) as [Hhigh | Hhigh].
    + assert (Hfit : forall n1 n2 : Z, utf8_len c1 = Some n1 ->
                utf8_len content = Some n2 -> n1 <= low -> n2 <= high)
        by (intros n1 n2 _ E2 _; rewrite Hlen in E2; injection E2 as <-; lia).
      destruct (shown >? min_items).
      * intros E1 E2. injection E2 as <- <-.
        apply while_true_shown_le in E1. split; [lia | exact Hfit].
      * destruct (title_limit >? 20).
        -- intros E1 E2. injection E2 as <- <-.
           apply while_true_shown_le in E1. split; [lia | exact Hfit].
        -- intros E1 E2. injection E1 as <- <-. injection E2 as <- <-.
           split; [lia | exact Hsame].
    + destruct (shown >? min_items); [apply IH |].
      destruct (title_limit >? 20); [apply IH |].
      intros E1 E2. injection E1 as <- <-. injection E2 as <- <-.
      split; [lia | exact Hsame].
Qed.

End LoopOrder.

(** X11.  Raising the byte limit never shows fewer items, and a digest that
    met the smaller limit meets the larger one; and whether the call raises
    does not depend on the limit. *)
Theorem digest_monotone_in_byte_limit {R : Runtime}
    (snapshot : dict) (keyword : pystr) (top_n low high : Z)
    (site_url : option pystr) :
  low <= high ->
  (build_digest_markdown snapshot keyword top_n low site_url
   = Some (inl UnicodeEncodeError)
   <-> build_digest_markdown snapshot keyword top_n high site_url
       = Some (inl UnicodeEncodeError))
  /\ (forall c1 s1 c2 s2,
      build_digest_markdown snapshot keyword top_n low site_url
      = Some (inr (c1, s1)) ->
      build_digest_markdown snapshot keyword top_n high site_url
      = Some (inr (c2, s2)) ->
      s1 <= s2
      /\ (forall n1 n2, utf8_len c1 = Some n1 -> utf8_len c2 = Some n2 ->
          n1 <= low -> n2 <= high)).
Proof.
  intros Hle. split.
  - destruct (build_digest_markdown_outcome snapshot keyword top_n low site_url)
      as [Hraise1 Hret1].
    destruct (build_digest_markdown_outcome snapshot keyword top_n high site_url)
      as [Hraise2 Hret2].
    destruct (encodable (first_pass_text snapshot keyword top_n site_url)).
    + destruct (Hret1 eq_refl) as (c1 & s1 & ->).
      destruct (Hret2 eq_refl) as (c2 & s2 & ->).
      split; discriminate.
    + rewrite (Hraise1 eq_refl), (Hraise2 eq_refl). tauto.
  - intros c1 s1 c2 s2 H1 H2.
    unfold build_digest_markdown in H1, H2. cbv zeta in H1, H2.
    eapply while_true_monotone; eauto.
Qed.

(** The two long items: one is shown under 400 bytes, both under 600. *)
Lemma digest_monotone_in_byte_limit_witness :
  exists c1 c2,
    @build_digest_markdown Host.runtime Samples.two_long_items Samples.KEYWORD
      2 400 None = Some (inr (c1, 1))
    /\ @build_digest_markdown Host.runtime Samples.two_long_items
         Samples.KEYWORD 2 600 None = Some (inr (c2, 2))
    /\ 1 <= 2.
Proof.
  assert (E1 : exists c1,
            @build_digest_markdown Host.runtime Samples.two_long_items
              Samples.KEYWORD 2 400 None = Some (inr (c1, 1)))
    by (vm_compute; eexists; reflexivity).
  assert (E2 : exists c2,
            @build_digest_markdown Host.runtime Samples.two_long_items
              Samples.KEYWORD 2 600 None = Some (inr (c2, 2)))
    by (vm_compute; eexists; reflexivity).
  destruct E1 as (c1 & E1). destruct E2 as (c2 & E2).
  exists c1, c2. split; [exact E1 |]. split; [exact E2 |].
  apply (proj2 (@digest_monotone_in_byte_limit Host.runtime
                  Samples.two_long_items Samples.KEYWORD 2 400 600 None
                  ltac:(discriminate)) c1 1 c2 2 E1 E2).
Defined.

(** X12.  A count that [build_digest_markdown] returns is never above the
    number of selected items, never above [top_n] when [top_n] is at least
    1, and never above 3 when [top_n] is zero or negative. *)
Theorem digest_shown_upper_bounds {R : Runtime}
    (snapshot : dict) (keyword : pystr) (top_n byte_limit : Z)
    (site_url : option pystr) (content : pystr) (shown : Z) :
  build_digest_markdown snapshot keyword top_n byte_limit site_url
  = Some (inr (content, shown)) ->
  0 <= shown <= Z.of_nat (List.length (pick_ai_items snapshot))
  /\ (1 <= top_n -> shown <= top_n)
  /\ (top_n <= 0 -> shown <= 3).
Proof.
  intros Hb.
  destruct (build_digest_markdown_returned _ _ _ _ _ _ _ Hb)
    as (t & size & _ & Hs & Hle & _).
  set (total := Z.of_nat (List.length (pick_ai_items snapshot))) in *.
  assert (Hinit : (1 <= top_n -> initial_shown top_n total <= top_n)
                  /\ (top_n <= 0 -> initial_shown top_n total <= 3)).
  { unfold initial_shown. cbv zeta.
    destruct (Z.gtb_spec (Z.min (Z.max top_n 0) total) 0); split; lia. }
  split.
  { destruct (Z.eqb_spec total 0); lia. }
  split; intros H; [apply Hinit in H | apply (proj2 Hinit) in H]; lia.
Qed.

(** Five items and [top_n = 2]: two are shown. *)
Lemma digest_shown_upper_bounds_witness :
  exists content,
    @build_digest_markdown Host.runtime Samples.five_items Samples.KEYWORD
      2 3800 None = Some (inr (content, 2))
    /\ 2 <= 2.
Proof.
  assert (E : exists content,
            @build_digest_markdown Host.runtime Samples.five_items
              Samples.KEYWORD 2 3800 None = Some (inr (content, 2)))
    by (vm_compute; eexists; reflexivity).
  destruct E as (content & E). exists content. split; [exact E |].
  apply (@digest_shown_upper_bounds Host.runtime _ _ _ _ _ _ _ E).
  discriminate.
Defined.

(** X13.  [top_n] only matters through its clamped value: a [top_n] of zero
    or less gives the digest of [top_n = 3], and a [top_n] above the number
    of selected items gives the digest of that number. *)
Theorem digest_top_n_clamped {R : Runtime}
    (snapshot : dict) (keyword : pystr) (top_n byte_limit : Z)
    (site_url : option pystr) :
  (top_n <= 0 ->
   build_digest_markdown snapshot keyword top_n byte_limit site_url
   = build_digest_markdown snapshot keyword 3 byte_limit site_url)
  /\ (Z.of_nat (List.length (pick_ai_items snapshot)) <= top_n ->
      build_digest_markdown snapshot keyword top_n byte_limit site_url
      = build_digest_markdown snapshot keyword
          (Z.of_nat (List.length (pick_ai_items snapshot)))
          byte_limit site_url).
Proof.
  set (total := Z.of_nat (List.length (pick_ai_items snapshot))).
  assert (Htotal : 0 <= total) by (unfold total; lia).
  split; intros H; unfold build_digest_markdown; cbv zeta; fold total.
  - replace (initial_shown top_n total) with (initial_shown 3 total);
      [reflexivity |].
    unfold initial_shown. cbv zeta.
    destruct (Z.gtb_spec (Z.min (Z.max 3 0) total) 0);
      destruct (Z.gtb_spec (Z.min (Z.max top_n 0) total) 0); lia.
  - replace (initial_shown top_n total) with (initial_shown total total);
      [reflexivity |].
    unfold initial_shown. cbv zeta.
    destruct (Z.gtb_spec (Z.min (Z.max total 0) total) 0);
      destruct (Z.gtb_spec (Z.min (Z.max top_n 0) total) 0); lia.
Qed.

(** A negative [top_n] and a huge one, on the five short items. *)
Lemma digest_top_n_clamped_witness :
  @build_digest_markdown Host.runtime Samples.five_items Samples.KEYWORD
    (-4) 3800 None
  = @build_digest_markdown Host.runtime Samples.five_items Samples.KEYWORD
      3 3800 None
  /\ @build_digest_markdown Host.runtime Samples.five_items Samples.KEYWORD
       1000 3800 None
     = @build_digest_markdown Host.runtime Samples.five_items Samples.KEYWORD
         5 3800 None.
Proof.
  split.
  - apply (@digest_top_n_clamped Host.runtime Samples.five_items
             Samples.KEYWORD (-4) 3800 None). discriminate.
  - apply (@digest_top_n_clamped Host.runtime Samples.five_items
             Samples.KEYWORD 1000 3800 None). discriminate.
Defined.

Section Remark.
Context {R : Runtime}.

Lemma join_app_cons (sep p : pystr) (front back : list pystr) :
  front <> [] ->
  join sep (front ++ p :: back) = join sep front ++ sep ++ join sep (p :: back).
Proof.
  induction front as [| q front IH]; intros Hne; [congruence |].
  destruct front as [| q' front].
  - reflexivity.
  - change (join sep ((q :: q' :: front) ++ p :: back))
      with (q ++ sep ++ join sep ((q' :: front) ++ p :: back)).
    change (join sep (q :: q' :: front))
      with (q ++ sep ++ join sep (q' :: front)).
    rewrite IH by discriminate.
    now rewrite <- !app_assoc.
Qed.

(** A rendered text with the remark: the remark closes it, after a blank
    line. *)
Lemma rendered_with_remark (snapshot : dict) (keyword : pystr) (total : Z)
    (site_url : option pystr) (body : list pystr) (count : pystr) :
  exists pre,
    strip (join [LF] (_header_lines snapshot keyword total site_url
                      ++ body ++ [[]; REMARK_PRE ++ count ++ REMARK_POST]))
    = pre ++ [LF; LF] ++ REMARK_PRE ++ count ++ REMARK_POST.
Proof.
  rewrite app_assoc.
  rewrite join_app_cons.
  2:{ destruct (header_lines_start snapshot keyword total site_url)
        as (g & rest & ->).
      destruct (nonempty keyword); discriminate. }
  destruct (join_header_body snapshot keyword total site_url body)
    as (more & ->).
  set (d := last REMARK_POST 0%N).
  set (post := removelast REMARK_POST).
  change REMARK_POST with (post ++ [d]).
  change REMARK_PRE with (62%N :: tl REMARK_PRE).
  change H_TITLE with (35%N :: tl H_TITLE).
  exists (lstrip (keyword_part keyword)
          ++ 35%N :: tl H_TITLE ++ LF :: 62%N :: more).
  transitivity
    (strip (keyword_part keyword
            ++ 35%N :: (tl H_TITLE ++ LF :: 62%N :: more ++ [LF; LF]
                        ++ 62%N :: tl REMARK_PRE ++ count ++ post)
            ++ d :: [])).
  - f_equal. cbn [join app].
    repeat first [rewrite <- app_assoc | progress cbn [app]]. reflexivity.
  - rewrite strip_two_anchors by reflexivity.
    repeat first [rewrite <- app_assoc | progress cbn [app]]. reflexivity.
Qed.

End Remark.

(** X14.  When a call returns a count below the number of selected items,
    the text it returns ends, after a blank line, with the remark that gives
    the number left out. *)
Theorem digest_ends_with_remark {R : Runtime}
    (snapshot : dict) (keyword : pystr) (top_n byte_limit : Z)
    (site_url : option pystr) (content : pystr) (shown : Z) :
  let total := Z.of_nat (List.length (pick_ai_items snapshot)) in
  build_digest_markdown snapshot keyword top_n byte_limit site_url
  = Some (inr (content, shown)) ->
  shown < total ->
  exists pre,
    content
    = pre ++ [LF; LF]
      ++ REMARK_PRE ++ str_of_int (total - shown) ++ REMARK_POST.
Proof.
  cbv zeta. intros Hb Hless.
  destruct (build_digest_markdown_returned _ _ _ _ _ _ _ Hb)
    as (t & size & Hc & _).
  rewrite Hc. unfold render. cbv zeta.
  destruct (Z.gtb_spec (Z.of_nat (List.length (pick_ai_items snapshot))) shown);
    [| lia].
  apply rendered_with_remark.
Qed.

(** Three of five items shown: the text ends with the remark on the other
    two. *)
Lemma digest_ends_with_remark_witness :
  exists content pre,
    @build_digest_markdown Host.runtime Samples.five_items Samples.KEYWORD
      3 10000 None = Some (inr (content, 3))
    /\ content = pre ++ [LF; LF] ++ lit "> 其余 2 条请查看页面或仓库数据".
Proof.
  assert (E : exists content,
            @build_digest_markdown Host.runtime Samples.five_items
              Samples.KEYWORD 3 10000 None = Some (inr (content, 3)))
    by (vm_compute; eexists; reflexivity).
  destruct E as (content & E).
  destruct (@digest_ends_with_remark Host.runtime _ _ _ _ _ _ _ E)
    as (pre & Hpre); [reflexivity |].
  exists content, pre. split; [exact E | exact Hpre].
Defined.

(** ** Further properties of delivery *)

Section Delivery.
Context {R : Runtime}.

Lemma pystr_eqb_eq (a b : pystr) : pystr_eqb a b = true -> a = b.
Proof. unfold pystr_eqb. destruct (list_eq_dec N.eq_dec a b); [auto | discriminate]. Qed.

Lemma get_default_absent (d : dict) (key : pystr) (default : value) :
  (forall v, ~ In (key, v) d) -> get_default d key default = default.
Proof.
  induction d as [| [k v] d IH]; intros H; [reflexivity |].
  simpl. destruct (pystr_eqb k key) eqn:E.
  - apply pystr_eqb_eq in E. subst k. exfalso. apply (H v). now left.
  - apply IH. intros v' Hin. apply (H v'). now right.
Qed.

Lemma send_wecom_markdown_world (w : world) (webhook_url content : pystr)
    (timeout : Z) :
  fst (send_wecom_markdown webhook_url content timeout w)
  = mk_world (answer w)
      (sent w ++ [mk_request webhook_url (markdown_payload content) timeout]).
Proof. now rewrite send_wecom_markdown_run. Qed.

End Delivery.

(** X15.  [send_wecom_markdown] returns a value only when the webhook
    answered with a status outside 400..599 and with a JSON record whose
    [errcode] converts to 0; the value returned is that record. *)
Theorem send_wecom_markdown_success_sound {R : Runtime}
    (w : world) (webhook_url content : pystr) (timeout : Z) (data : value) :
  snd (send_wecom_markdown webhook_url content timeout w) = inr data ->
  exists resp d,
    answer w (sent w)
      (mk_request webhook_url (markdown_payload content) timeout) = inr resp
    /\ ~ (400 <= status_code resp < 600)
    /\ json_body resp = Some data
    /\ data = VDict d
    /\ py_int (get_default d (lit "errcode") (VInt (-1))) = inr 0.
Proof.
  rewrite send_wecom_markdown_run. cbv zeta. cbn [snd].
  destruct (answer w (sent w) _) as [e | resp] eqn:Ha; [discriminate |].
  destruct ((400 <=? status_code resp) && (status_code resp <? 600)) eqn:Hs;
    [discriminate |].
  destruct (json_body resp) as [[| | | | | | d] |] eqn:Hj; try discriminate.
  destruct (py_int (get_default d (lit "errcode") (VInt (-1))))
    as [e | n] eqn:Hn; [discriminate |].
  destruct (Z.eqb_spec n 0) as [-> | Hne]; cbn [negb]; [| discriminate].
  intros E. injection E as <-.
  exists resp, d. split; [reflexivity |].
  split.
  { intros [H4 H6]. apply Z.leb_le in H4. apply Z.ltb_lt in H6.
    rewrite H4, H6 in Hs. discriminate. }
  repeat split; assumption.
Qed.

(** The webhook of the examples reporting [errcode] 0. *)
Lemma send_wecom_markdown_success_sound_witness :
  exists resp d,
    answer (Samples.answers_ok [(lit "errcode", VInt 0)]) []
      (mk_request (lit "https://hook") (markdown_payload (lit "hi")) 15)
    = inr resp
    /\ ~ (400 <= status_code resp < 600)
    /\ json_body resp = Some (VDict [(lit "errcode", VInt 0)])
    /\ VDict [(lit "errcode", VInt 0)] = VDict d
    /\ @py_int Host.runtime (get_default d (lit "errcode") (VInt (-1))) = inr 0.
Proof.
  apply (@send_wecom_markdown_success_sound Host.runtime
           (Samples.answers_ok [(lit "errcode", VInt 0)])
           (lit "https://hook") (lit "hi") 15).
  reflexivity.
Defined.

(** X16.  After a status outside 400..599 the call still fails when the
    reply is unusable: a body that is not JSON raises the decoding error, a
    JSON value that is not a record raises [AttributeError], a record with
    no [errcode] key counts as code -1 and raises [RuntimeError] with the
    record, and an [errcode] of [null] raises [TypeError]. *)
Theorem send_wecom_markdown_unusable_reply {R : Runtime}
    (w : world) (webhook_url content : pystr) (timeout : Z) (resp : response) :
  answer w (sent w)
    (mk_request webhook_url (markdown_payload content) timeout) = inr resp ->
  ~ (400 <= status_code resp < 600) ->
  let out := snd (send_wecom_markdown webhook_url content timeout w) in
  (json_body resp = None -> out = inl JSONDecodeError)
  /\ (forall v, json_body resp = Some v -> (forall d, v <> VDict d) ->
      out = inl AttributeError)
  /\ (forall d, json_body resp = Some (VDict d) ->
      (forall v, ~ In (lit "errcode", v) d) ->
      out = inl (RuntimeError (lit "WeCom push failed: " ++ py_str (VDict d))))
  /\ (forall d, json_body resp = Some (VDict d) ->
      get_default d (lit "errcode") (VInt (-1)) = VNone ->
      out = inl TypeError).
Proof.
  intros Ha Hs. cbv zeta. rewrite send_wecom_markdown_run. cbv zeta.
  cbn [snd]. rewrite Ha.
  assert (E : (400 <=? status_code resp) && (status_code resp <? 600) = false).
  { destruct (Z.leb_spec 400 (status_code resp));
      destruct (Z.ltb_spec (status_code resp) 600); simpl; try reflexivity; lia. }
  rewrite E. clear E.
  split; [intros ->; reflexivity |].
  split.
  { intros v -> Hv. destruct v as [| | | | | | d]; try reflexivity.
    exfalso. now apply (Hv d). }
  split.
  { intros d -> Habsent. now rewrite get_default_absent by exact Habsent. }
  intros d -> Hnone. now rewrite Hnone.
Qed.

(** A reply without [errcode]. *)
Lemma send_wecom_markdown_unusable_reply_witness :
  snd (@send_wecom_markdown Host.runtime (lit "https://hook") (lit "hi") 15
         (Samples.answers_ok [(lit "errmsg", VStr (lit "ok"))]))
  = inl (RuntimeError (lit "WeCom push failed: {'errmsg': 'ok'}")).
Proof.
  destruct (@send_wecom_markdown_unusable_reply Host.runtime
              (Samples.answers_ok [(lit "errmsg", VStr (lit "ok"))])
              (lit "https://hook") (lit "hi") 15
              (mk_response 200 (Some (VDict [(lit "errmsg", VStr (lit "ok"))]))))
    as (_ & _ & H & _); [reflexivity | simpl; lia |].
  apply (H [(lit "errmsg", VStr (lit "ok"))]); [reflexivity |].
  intros v [E | []]. discriminate.
Defined.

(** ** Properties of the command line *)

Section Main.
Context {R : Runtime}.

Lemma strip_all_space (s : pystr) : forallb is_space s = true -> strip s = [].
Proof. intros H. unfold strip. now rewrite lstrip_all_space. Qed.

(** The builder ends on the arguments of [main]. *)
Lemma main_builds (a : Cli.args) (snapshot : dict) :
  exists r,
    build_digest_markdown snapshot (Cli.arg_keyword a) (Cli.arg_top_n a)
      (Cli.arg_byte_limit a)
      (if nonempty (Cli.arg_site_url a) then Some (Cli.arg_site_url a)
       else None)
    = Some r.
Proof.
  destruct (build_digest_markdown_ends snapshot (Cli.arg_keyword a)
              (Cli.arg_top_n a) (Cli.arg_byte_limit a)
              (if nonempty (Cli.arg_site_url a) then Some (Cli.arg_site_url a)
               else None))
    as (r & H & _).
  now exists r.
Qed.

End Main.

(** X17.  A dry run never touches the network, whatever the input.  On a
    snapshot that is a record, when the builder returns, it prints the
    digest and then the line with the count, and returns 0; when the
    builder raises, [main] ends with that exception and prints nothing. *)
Theorem main_dry_run {R : Runtime} (a : Cli.args) (h : Cli.host) :
  Cli.arg_dry_run a = true ->
  Cli.network (fst (Cli.main a h)) = Cli.network h
  /\ (forall snapshot,
      Cli.documents h (Cli.arg_input a) = Cli.Parsed (VDict snapshot) ->
      let built :=
        build_digest_markdown snapshot (Cli.arg_keyword a) (Cli.arg_top_n a)
          (Cli.arg_byte_limit a)
          (if nonempty (Cli.arg_site_url a) then Some (Cli.arg_site_url a)
           else None) in
      (forall content shown,
        built = Some (inr (content, shown)) ->
        snd (Cli.main a h) = Cli.Returned 0
        /\ Cli.stdout (fst (Cli.main a h))
           = Cli.stdout h
             ++ [content; LF :: lit "[dry-run] shown=" ++ str_of_int shown])
      /\ (forall e,
          built = Some (inl e) -> Cli.main a h = (h, Cli.Raised e))).
Proof.
  intros Hdry. split.
  - unfold Cli.main.
    destruct (Cli.documents h (Cli.arg_input a)) as [| | v]; try reflexivity.
    destruct v as [| | | | | | snapshot]; try reflexivity.
    destruct (main_builds a snapshot) as ([e | [c s]] & ->); [reflexivity |].
    rewrite Hdry. reflexivity.
  - intros snapshot Hdoc. cbv zeta. split.
    + intros content shown Hb. unfold Cli.main. rewrite Hdoc, Hb, Hdry.
      split; [reflexivity |].
      cbn [fst Cli.print Cli.stdout]. now rewrite <- app_assoc.
    + intros e Hb. unfold Cli.main. now rewrite Hdoc, Hb.
Qed.

(** A dry run on the host of the examples leaves its network as it was. *)
Lemma main_dry_run_witness :
  Cli.network (fst (@Cli.main Host.runtime Runs.dry_args Runs.host))
  = Cli.network Runs.host.
Proof.
  apply (@main_dry_run Host.runtime Runs.dry_args Runs.host). reflexivity.
Defined.

(** X18.  Without a usable webhook nothing is sent and nothing is printed:
    when the override, or else the environment variable, is blank once
    stripped, [main] exits with the message that names the variable; unless
    the builder raised, which comes first and ends [main] with the builder's
    exception.  The override is taken whenever it is not empty, so one made
    of whitespace alone leads here even if the variable is set. *)
Theorem main_missing_webhook {R : Runtime}
    (a : Cli.args) (h : Cli.host) (snapshot : dict)
    (built : result (pystr * Z)) :
  Cli.arg_dry_run a = false ->
  Cli.documents h (Cli.arg_input a) = Cli.Parsed (VDict snapshot) ->
  build_digest_markdown snapshot (Cli.arg_keyword a) (Cli.arg_top_n a)
    (Cli.arg_byte_limit a)
    (if nonempty (Cli.arg_site_url a) then Some (Cli.arg_site_url a) else None)
  = Some built ->
  let ends :=
    Cli.main a h
    = (h, match built with
          | inl e => Cli.Raised e
          | inr _ =>
            Cli.SystemExit
              (lit "Missing webhook URL. Provide --webhook-url or set env "
               ++ Cli.arg_webhook_env a)
          end) in
  (strip (str_or (Cli.arg_webhook_url a) (Cli.getenv h (Cli.arg_webhook_env a)))
   = [] -> ends)
  /\ (Cli.arg_webhook_url a <> [] ->
      forallb is_space (Cli.arg_webhook_url a) = true -> ends)
  /\ (Cli.arg_webhook_url a = [] ->
      Cli.environ h (Cli.arg_webhook_env a) = None -> ends).
Proof.
  intros Hdry Hdoc Hb. cbv zeta.
  assert (Hexit : strip (str_or (Cli.arg_webhook_url a)
                                (Cli.getenv h (Cli.arg_webhook_env a))) = [] ->
                  Cli.main a h
                  = (h, match built with
                        | inl e => Cli.Raised e
                        | inr _ =>
                          Cli.SystemExit
                            (lit "Missing webhook URL. Provide --webhook-url or set env "
                             ++ Cli.arg_webhook_env a)
                        end)).
  { intros Hblank. unfold Cli.main. rewrite Hdoc, Hb.
    destruct built as [e | [content shown]]; [reflexivity |].
    rewrite Hdry. cbv zeta. rewrite Hblank. reflexivity. }
  split; [exact Hexit |].
  split.
  - intros Hne Hsp. apply Hexit. unfold str_or.
    destruct (Cli.arg_webhook_url a) as [| c u] eqn:E; [congruence |].
    cbn [nonempty]. now apply strip_all_space.
  - intros Hnone Henv. apply Hexit. unfold str_or, Cli.getenv.
    rewrite Hnone, Henv. reflexivity.
Qed.

(** The blank override hides the variable that is set. *)
Lemma main_missing_webhook_witness :
  Runs.env_with_hook (lit "WECOM_WEBHOOK_URL") = Some (lit " https://hook ")
  /\ @Cli.main Host.runtime Runs.blank_override_args Runs.host
     = (Runs.host,
        Cli.SystemExit
          (lit "Missing webhook URL. Provide --webhook-url or set env WECOM_WEBHOOK_URL")).
Proof.
  split; [reflexivity |].
  assert (E : exists content shown,
            @build_digest_markdown Host.runtime Samples.five_items
              (Cli.arg_keyword Runs.blank_override_args)
              (Cli.arg_top_n Runs.blank_override_args)
              (Cli.arg_byte_limit Runs.blank_override_args)
              (if nonempty (Cli.arg_site_url Runs.blank_override_args)
               then Some (Cli.arg_site_url Runs.blank_override_args)
               else None)
            = Some (inr (content, shown)))
    by (vm_compute; eexists; eexists; reflexivity).
  destruct E as (content & shown & E).
  destruct (@main_missing_webhook Host.runtime Runs.blank_override_args
              Runs.host Samples.five_items (inr (content, shown)))
    as (_ & H & _); [reflexivity | reflexivity | exact E |].
  apply H; [discriminate | reflexivity].
Defined.

(** X19.  With a webhook and a digest the builder returned, [main] makes
    exactly one POST: to the stripped override if one is given, else to the
    stripped value of the environment variable, with that digest as the
    markdown content and a timeout of 15.  It prints the reply and returns
    0 when the delivery returns, and prints nothing and lets the exception
    through when it raises. *)
Theorem main_delivers_once {R : Runtime}
    (a : Cli.args) (h : Cli.host) (snapshot : dict)
    (content : pystr) (shown : Z) :
  Cli.arg_dry_run a = false ->
  Cli.documents h (Cli.arg_input a) = Cli.Parsed (VDict snapshot) ->
  build_digest_markdown snapshot (Cli.arg_keyword a) (Cli.arg_top_n a)
    (Cli.arg_byte_limit a)
    (if nonempty (Cli.arg_site_url a) then Some (Cli.arg_site_url a) else None)
  = Some (inr (content, shown)) ->
  let webhook :=
    strip (str_or (Cli.arg_webhook_url a)
                  (Cli.getenv h (Cli.arg_webhook_env a))) in
  webhook <> [] ->
  sent (Cli.network (fst (Cli.main a h)))
  = sent (Cli.network h)
    ++ [mk_request webhook
          (VDict [(lit "msgtype", VStr (lit "markdown"));
                  (lit "markdown", VDict [(lit "content", VStr content)])])
          15]
  /\ (Cli.arg_webhook_url a <> [] -> webhook = strip (Cli.arg_webhook_url a))
  /\ match snd (send_wecom_markdown webhook content 15 (Cli.network h)) with
     | inr reply =>
       snd (Cli.main a h) = Cli.Returned 0
       /\ Cli.stdout (fst (Cli.main a h)) = Cli.stdout h ++ [py_str reply]
     | inl e =>
       snd (Cli.main a h) = Cli.Raised e
       /\ Cli.stdout (fst (Cli.main a h)) = Cli.stdout h
     end.
Proof.
  intros Hdry Hdoc Hb webhook Hweb.
  assert (Hne : negb (nonempty webhook) = false).
  { destruct webhook; [congruence | reflexivity]. }
  assert (Hmain : Cli.main a h
                  = match send_wecom_markdown webhook content 15 (Cli.network h) with
                    | (w, inl e) => (Cli.with_network h w, Cli.Raised e)
                    | (w, inr reply) =>
                      (Cli.print (Cli.with_network h w) (py_str reply),
                       Cli.Returned 0)
                    end).
  { unfold Cli.main. rewrite Hdoc, Hb, Hdry. cbv zeta. fold webhook.
    now rewrite Hne. }
  pose proof (send_wecom_markdown_world (Cli.network h) webhook content 15) as Hw.
  rewrite Hmain.
  destruct (send_wecom_markdown webhook content 15 (Cli.network h))
    as [w' [e | reply]]; cbn [fst snd] in *; subst w'.
  - split; [reflexivity |]. split; [| split; reflexivity].
    intros Hurl. unfold webhook, str_or.
    destruct (Cli.arg_webhook_url a); [congruence | reflexivity].
  - split; [reflexivity |]. split; [| split; reflexivity].
    intros Hurl. unfold webhook, str_or.
    destruct (Cli.arg_webhook_url a); [congruence | reflexivity].
Qed.

(** The defaults on the host of the examples: one POST to the stripped URL
    of the variable. *)
Lemma main_delivers_once_witness :
  exists content,
    sent (Cli.network (fst (@Cli.main Host.runtime Cli.default_args Runs.host)))
    = [mk_request (lit "https://hook")
         (VDict [(lit "msgtype", VStr (lit "markdown"));
                 (lit "markdown", VDict [(lit "content", VStr content)])])
         15].
Proof.
  assert (E : exists content shown,
            @build_digest_markdown Host.runtime Samples.five_items
              (Cli.arg_keyword Cli.default_args)
              (Cli.arg_top_n Cli.default_args)
              (Cli.arg_byte_limit Cli.default_args)
              (if nonempty (Cli.arg_site_url Cli.default_args)
               then Some (Cli.arg_site_url Cli.default_args)
               else None)
            = Some (inr (content, shown)))
    by (vm_compute; eexists; eexists; reflexivity).
  destruct E as (content & shown & E).
  destruct (@main_delivers_once Host.runtime Cli.default_args Runs.host
              Samples.five_items content shown) as (H & _);
    [reflexivity | reflexivity | exact E | vm_compute; discriminate |].
  exists content. exact H.
Defined.

(** X20.  Whatever the arguments and the host, [main] changes neither the
    documents nor the environment, sends at most one request after those
    already sent, only adds to what was printed, prints nothing unless it
    returns, returns no code but 0, and never runs out of passes. *)
Theorem main_effects {R : Runtime} (a : Cli.args) (h : Cli.host) :
  Cli.documents (fst (Cli.main a h)) = Cli.documents h
  /\ Cli.environ (fst (Cli.main a h)) = Cli.environ h
  /\ (exists requests,
        sent (Cli.network (fst (Cli.main a h)))
        = sent (Cli.network h) ++ requests
        /\ (List.length requests <= 1)%nat)
  /\ (exists lines,
        Cli.stdout (fst (Cli.main a h)) = Cli.stdout h ++ lines
        /\ (snd (Cli.main a h) <> Cli.Returned 0 -> lines = []))
  /\ (forall code, snd (Cli.main a h) = Cli.Returned code -> code = 0)
  /\ snd (Cli.main a h) <> Cli.OutOfPasses.
Proof.
  assert (Hsame : forall o, o <> Cli.OutOfPasses ->
            (forall code, o = Cli.Returned code -> code = 0) ->
            Cli.documents (fst (h, o)) = Cli.documents h
            /\ Cli.environ (fst (h, o)) = Cli.environ h
            /\ (exists requests,
                  sent (Cli.network (fst (h, o)))
                  = sent (Cli.network h) ++ requests
                  /\ (List.length requests <= 1)%nat)
            /\ (exists lines,
                  Cli.stdout (fst (h, o)) = Cli.stdout h ++ lines
                  /\ (snd (h, o) <> Cli.Returned 0 -> lines = []))
            /\ (forall code, snd (h, o) = Cli.Returned code -> code = 0)
            /\ snd (h, o) <> Cli.OutOfPasses).
  { intros o Ho Hcode. cbn [fst snd].
    split; [reflexivity |]. split; [reflexivity |].
    split; [exists []; split; [now rewrite app_nil_r | simpl; lia] |].
    split; [exists []; split; [now rewrite app_nil_r | reflexivity] |].
    split; assumption. }
  unfold Cli.main.
  destruct (Cli.documents h (Cli.arg_input a)) as [| | v];
    try (apply Hsame; [discriminate | intros code E; discriminate]).
  destruct v as [| | | | | | snapshot];
    try (apply Hsame; [discriminate | intros code E; discriminate]).
  destruct (main_builds a snapshot) as ([e | [c s]] & ->);
    [apply Hsame; [discriminate | intros code E; discriminate] |].
  destruct (Cli.arg_dry_run a).
  - cbn [fst snd Cli.print Cli.documents Cli.environ Cli.stdout Cli.network].
    split; [reflexivity |]. split; [reflexivity |].
    split; [exists []; split; [now rewrite app_nil_r | simpl; lia] |].
    split.
    { exists [c; Cli.DRY_RUN_SHOWN ++ str_of_int s].
      split; [now rewrite <- app_assoc | congruence]. }
    split; [intros code E; now injection E | discriminate].
  - cbv zeta.
    destruct (negb (nonempty (strip (str_or (Cli.arg_webhook_url a)
                (Cli.getenv h (Cli.arg_webhook_env a))))));
      [apply Hsame; [discriminate | intros code E; discriminate] |].
    match goal with
    | |- context [send_wecom_markdown ?u c 15 (Cli.network h)] =>
      pose proof (send_wecom_markdown_world (Cli.network h) u c 15) as Hw;
      destruct (send_wecom_markdown u c 15 (Cli.network h)) as [w' [e | reply]]
    end; cbn [fst] in Hw; subst w';
      cbn [fst snd Cli.print Cli.with_network Cli.documents Cli.environ
           Cli.stdout Cli.network sent].
    + split; [reflexivity |]. split; [reflexivity |].
      split; [eexists; split; [reflexivity | simpl; lia] |].
      split; [exists []; split; [now rewrite app_nil_r | reflexivity] |].
      split; [intros code E; discriminate | discriminate].
    + split; [reflexivity |]. split; [reflexivity |].
      split; [eexists; split; [reflexivity | simpl; lia] |].
      split; [eexists; split; [reflexivity | congruence] |].
      split; [intros code E; now injection E | discriminate].
Qed.

(** The default run on the host of the examples prints the reply and
    returns 0; with an undecodable byte as keyword it raises before
    anything is printed or sent. *)
Example main_default_run :
  snd (@Cli.main Host.runtime Cli.default_args Runs.host) = Cli.Returned 0
  /\ Cli.stdout (fst (@Cli.main Host.runtime Cli.default_args Runs.host))
     = [lit "{'errcode': 0, 'errmsg': 'ok'}"].
Proof. split; vm_compute; reflexivity. Qed.

Example main_surrogate_keyword :
  @Cli.main Host.runtime
    (Cli.mk_args (lit "data/latest-24h.json") 12 Samples.ESCAPED_BYTE
       DEFAULT_BYTE_LIMIT [] (lit "WECOM_WEBHOOK_URL") [] false)
    Runs.host
  = (Runs.host, Cli.Raised UnicodeEncodeError).
Proof. vm_compute. reflexivity. Qed.
